(** * SCTE-35 splice_info_section decoder (scte35.py)

    A shallow embedding of [SCTE35_Parser] and of the part of the
    [bitstring] cursor it drives, followed by the properties of the decoder.

    Python values are modelled by [pyval]; a [dict] is an association list
    from string keys, so that the presence or absence of a key can be told
    apart from a key bound to [None].  The bit cursor is the pair of the
    buffer, as a list of bits (most significant bit of each byte first), and
    the read position [pos].  Exceptions are the [Err] side of [result]. *)

From Stdlib Require Import ZArith List String Ascii Bool Lia.
From Stdlib Require Import Strings.Byte.
Import ListNotations.

Open Scope string_scope.
Open Scope list_scope.
Open Scope Z_scope.

(** ** Python values *)

#[warnings="-register-all"]
Inductive pyval : Type :=
| VNone
| VBool (b : bool)
| VInt (n : Z)
| VStr (s : string)
| VList (l : list pyval)
| VDict (d : list (string * pyval)).

Definition pydict : Type := list (string * pyval).

Section Dict.
Context {V : Type}.

  (** [d.get(k)]: the value bound to [k], if any. *)
Fixpoint dict_get (k : string) (d : list (string * V)) : option V :=
    match d with
    | [] => None
    | (k', v) :: d' => if String.eqb k k' then Some v else dict_get k d'
    end.

  (** [d[k] = v]: rebinds [k] where it stands, or adds it. *)
Fixpoint dict_set (k : string) (v : V) (d : list (string * V))
    : list (string * V) :=
    match d with
    | [] => [(k, v)]
    | (k', v') :: d' =>
        if String.eqb k k' then (k, v) :: d' else (k', v') :: dict_set k v d'
    end.

  (** [k in d]. *)
Definition has_key (k : string) (d : list (string * V)) : bool :=
    match dict_get k d with Some _ => true | None => false end.
End Dict.

(** ** Exceptions *)

Inductive exn : Type :=
| ReadError                          (* bitstring.ReadError: read past the end *)
| ValueError                         (* pos set past the end; int() of a non-number *)
| NameError (name : string)          (* a global name that is not defined *)
| KeyError (key : string)            (* d[k] with k absent *)
| AttributeError                     (* .append on something that is no list *)
| InvalidTableId (table_id : Z)      (* Exception("table_id %d invalid. Should be 0xfc") *)
| UnsupportedSpliceCommand (t : Z).  (* Exception("splice_command_type: %d not yet supported") *)

(** What running a piece of the decoder gives: a value, a raised exception,
    or [OutOfFuel] when the bound put on the iterations of the [while] loop
    is used up.  [OutOfFuel] is no exception, and no [except] clause
    catches it; [parse_never_out_of_fuel] shows that it does not arise. *)
Inductive result (A : Type) : Type :=
| OK (a : A)
| Err (e : exn)
| OutOfFuel.
Arguments OK {A} a.
Arguments Err {A} e.
Arguments OutOfFuel {A}.

(** ** The interpreter

    The loop of [__parse_splice_insert] calls [xrange], a builtin of
    Python 2 that Python 3 does not have.  The module imports [enum] and has
    a string literal with bytes outside ASCII (line 52) and no encoding
    declaration, which Python 2 refuses to load (PEP 263); it loads under
    Python 3.  The embedding takes the interpreter as a parameter and looks
    the builtin up in it. *)

Inductive python : Type := Python2 | Python3.

(** [range(lo, hi)] as the list it iterates over. *)
Definition py_range (lo hi : Z) : list Z :=
  map (fun i => lo + Z.of_nat i) (seq 0 (Z.to_nat (hi - lo))).

Definition builtin_xrange (py : python) (lo hi : Z) : result (list Z) :=
  match py with
  | Python2 => OK (py_range lo hi)
  | Python3 => Err (NameError "xrange")
  end.

(** ** bitstring.BitString: a buffer of bits and a read position *)

Record bitarray : Type := mkBits { data : list bool; pos : nat }.

Definition len (s : bitarray) : nat := List.length (data s).
Definition remaining (s : bitarray) : nat := (len s - pos s)%nat.

Definition bits_of_byte (b : byte) : list bool :=
  map (N.testbit (Byte.to_N b)) [7; 6; 5; 4; 3; 2; 1; 0]%N.

(** [bitstring.BitString(bytes=input_bytes)] *)
Definition BitString (input_bytes : list byte) : bitarray :=
  {| data := flat_map bits_of_byte input_bytes; pos := 0 |}.

(** Big-endian unsigned value of a run of bits. *)
Definition bits_to_Z (l : list bool) : Z :=
  fold_left (fun acc b => 2 * acc + Z.b2z b) l 0.

Definition hex_digit (n : Z) : ascii :=
  nth (Z.to_nat n)
      (list_ascii_of_string "0123456789abcdef") "0"%char.

(** The [.hex] rendering: one lowercase digit per four bits. *)
Fixpoint hex_of_bits (l : list bool) : string :=
  match l with
  | b3 :: b2 :: b1 :: b0 :: r =>
      String (hex_digit (bits_to_Z [b3; b2; b1; b0])) (hex_of_bits r)
  | _ => ""
  end.

Definition hex_value (c : ascii) : option Z :=
  let n := Z.of_nat (nat_of_ascii c) in
  if (48 <=? n) && (n <=? 57) then Some (n - 48)
  else if (97 <=? n) && (n <=? 102) then Some (n - 87)
  else if (65 <=? n) && (n <=? 70) then Some (n - 55)
  else None.

(** [int(s, 16)] on a string of hex digits. *)
Fixpoint int16_from (acc : Z) (s : string) : result Z :=
  match s with
  | EmptyString => OK acc
  | String c s' =>
      match hex_value c with
      | Some d => int16_from (16 * acc + d) s'
      | None => Err ValueError
      end
  end.

Definition int16 (s : string) : result Z :=
  match s with
  | EmptyString => Err ValueError
  | _ => int16_from 0 s
  end.

(** ** The cursor monad: state passing with exceptions *)

Definition M (A : Type) : Type := bitarray -> result (A * bitarray).

Definition ret {A} (a : A) : M A := fun s => OK (a, s).

Definition raise {A} (e : exn) : M A := fun _ => Err e.

Definition bind {A B} (m : M A) (k : A -> M B) : M B :=
  fun s =>
    match m s with
    | OK (a, s') => k a s'
    | Err e => Err e
    | OutOfFuel => OutOfFuel
    end.

Definition lift {A} (r : result A) : M A :=
  fun s =>
    match r with
    | OK a => OK (a, s)
    | Err e => Err e
    | OutOfFuel => OutOfFuel
    end.

Declare Scope cursor_scope.
Delimit Scope cursor_scope with cursor.
Notation "x <- m ;; k" := (bind m (fun x => k))
  (at level 61, m at next level, right associativity) : cursor_scope.
Notation "m ;;; k" := (bind m (fun _ => k))
  (at level 61, right associativity) : cursor_scope.
Open Scope cursor_scope.

(** [bitarray.read(n)]: the next [n] bits; [ReadError] when fewer remain. *)
Definition read_bits (n : nat) : M (list bool) :=
  fun s =>
    if (pos s + n <=? len s)%nat
    then OK (firstn n (skipn (pos s) (data s)),
             {| data := data s; pos := (pos s + n)%nat |})
    else Err ReadError.

(** [bitarray.read("uint:n")] *)
Definition read_uint (n : nat) : M Z :=
  bits <- read_bits n ;; ret (bits_to_Z bits).

(** [bitarray.read("bool")] *)
Definition read_bool : M bool :=
  bits <- read_bits 1 ;; ret (bits_to_Z bits =? 1).

(** [bitarray.read("hex:n")] and [bitarray.read(n).hex] *)
Definition read_hex (n : nat) : M string :=
  bits <- read_bits n ;; ret (hex_of_bits bits).

(** [bitarray.pos += n]: the setter refuses a position past the end. *)
Definition skip (n : nat) : M unit :=
  fun s =>
    if (pos s + n <=? len s)%nat
    then OK (tt, {| data := data s; pos := (pos s + n)%nat |})
    else Err ValueError.

(** [bitarray.pos == bitarray.len] *)
Definition at_end : M bool :=
  fun s => OK ((pos s =? len s)%nat, s).

(** [d[k].append(x)], the list bound to [k] being shared with the dict. *)
Definition dict_append (k : string) (x : pyval) (d : pydict) : result pydict :=
  match dict_get k d with
  | Some (VList l) => OK (dict_set k (VList (l ++ [x])) d)
  | Some _ => Err AttributeError
  | None => Err (KeyError k)
  end.

(** ** Module constants *)

Definition SEGMENTATION_TYPE_IDS : list (string * string) :=
  [ ("00", "Not Indicated");
    ("01", "Content Identification");
    ("10", "Program Start");
    ("11", "Program End");
    ("12", "Program Early Termination");
    ("13", "Program Breakaway");
    ("14", "Program Resumption");
    ("15", "Program Runover Planned");
    ("16", "Program Runover Unplanned");
    ("17", "Program Overlap Start");
    ("18", "Program Blackout Override");
    ("19", "Program Start â€“ In Progress");
    ("20", "Chapter Start");
    ("21", "Chapter End");
    ("22", "Break Start");
    ("23", "Break End");
    ("30", "Provider Advertisement Start");
    ("31", "Provider Advertisement End");
    ("32", "Distributor Advertisement Start");
    ("33", "Distributor Advertisement End");
    ("34", "Provider Placement Opportunity Start");
    ("35", "Provider Placement Opportunity End");
    ("36", "Distributor Placement Opportunity Start");
    ("37", "Distributor Placement Opportunity End");
    ("40", "Unscheduled Event Start");
    ("41", "Unscheduled Event End");
    ("50", "Network Start");
    ("51", "Network End") ].

(** [class SpliceDescriptor(IntEnum)] *)
Inductive SpliceDescriptor : Type :=
| AVAIL_DESCRIPTOR
| DTMF_DESCRIPTOR
| SEGMENTATION_DESCRIPTOR
| TIME_DESCRIPTOR.

Definition SpliceDescriptor_value (d : SpliceDescriptor) : Z :=
  match d with
  | AVAIL_DESCRIPTOR => 0
  | DTMF_DESCRIPTOR => 1
  | SEGMENTATION_DESCRIPTOR => 2
  | TIME_DESCRIPTOR => 3
  end.

(** ** SCTE35_Parser

    [MPEG_Time] subclasses [int] and adds only derived read-outs, so a
    clock value is the [VInt] it wraps. *)

(** [__parse_splice_time] *)
Definition parse_splice_time : M pydict :=
  let splice_time : pydict := [] in
  time_specified_flag <- read_bool ;;
  let splice_time :=
    dict_set "time_specified_flag" (VBool time_specified_flag) splice_time in
  if time_specified_flag then
    skip 6 ;;;
    pts_time <- read_uint 33 ;;
    ret (dict_set "pts_time" (VInt pts_time) splice_time)
  else
    skip 7 ;;;
    ret splice_time.

(** [__parse_break_duration] *)
Definition parse_break_duration : M pydict :=
  let break_duration : pydict := [] in
  auto_return <- read_bool ;;
  let break_duration :=
    dict_set "auto_return" (VBool auto_return) break_duration in
  skip 6 ;;;
  duration <- read_uint 33 ;;
  ret (dict_set "duration" (VInt duration) break_duration).

(** The body of the [for] loop of [__parse_splice_insert], once per element
    of the range. *)
Fixpoint splice_insert_components (range : list Z) (splice_immediate_flag : bool)
    (ssi : pydict) : M pydict :=
  match range with
  | [] => ret ssi
  | _ :: range' =>
      let component : pydict := [] in
      tag <- read_uint 8 ;;
      let component := dict_set "tag" (VInt tag) component in
      let component := dict_set "splice_time" VNone component in
      component <-
        (if splice_immediate_flag then
           splice_time <- parse_splice_time ;;
           ret (dict_set "splice_time" (VDict splice_time) component)
         else ret component) ;;
      ssi <- lift (dict_append "components" (VDict component) ssi) ;;
      splice_insert_components range' splice_immediate_flag ssi
  end.

(** [__parse_splice_insert].  The [return ssi] is the last statement of the
    [if not ssi["splice_event_cancel_indicator"]] block: with the indicator
    set the function runs off its end and returns [None]. *)
Definition parse_splice_insert (py : python) : M pyval :=
  splice_event_id <- read_uint 32 ;;
  let ssi : pydict := [] in
  let ssi := dict_set "splice_id" (VInt splice_event_id) ssi in
  let ssi := dict_set "components" (VList []) ssi in
  splice_event_cancel_indicator <- read_bool ;;
  let ssi :=
    dict_set "splice_event_cancel_indicator"
             (VBool splice_event_cancel_indicator) ssi in
  skip 7 ;;;
  if negb splice_event_cancel_indicator then
    out_of_network_indicator <- read_bool ;;
    let ssi :=
      dict_set "out_of_network_indicator" (VBool out_of_network_indicator) ssi in
    program_splice_flag <- read_bool ;;
    let ssi := dict_set "program_splice_flag" (VBool program_splice_flag) ssi in
    duration_flag <- read_bool ;;
    let ssi := dict_set "duration_flag" (VBool duration_flag) ssi in
    splice_immediate_flag <- read_bool ;;
    let ssi :=
      dict_set "splice_immediate_flag" (VBool splice_immediate_flag) ssi in
    skip 4 ;;;
    ssi <-
      (if program_splice_flag && negb splice_immediate_flag then
         splice_time <- parse_splice_time ;;
         ret (dict_set "splice_time" (VDict splice_time) ssi)
       else ret ssi) ;;
    ssi <-
      (if negb program_splice_flag then
         component_count <- read_uint 8 ;;
         let ssi := dict_set "component_count" (VInt component_count) ssi in
         range <- lift (builtin_xrange py 0 component_count) ;;
         splice_insert_components range splice_immediate_flag ssi
       else ret ssi) ;;
    ssi <-
      (if duration_flag then
         break_duration <- parse_break_duration ;;
         ret (dict_set "break_duration" (VDict break_duration) ssi)
       else ret ssi) ;;
    unique_program_id <- read_uint 16 ;;
    let ssi := dict_set "unique_program_id" (VInt unique_program_id) ssi in
    avail_num <- read_uint 8 ;;
    let ssi := dict_set "avail_num" (VInt avail_num) ssi in
    avails_expected <- read_uint 8 ;;
    let ssi := dict_set "avails_expected" (VInt avails_expected) ssi in
    ret (VDict ssi)
  else
    ret VNone.

(** [__parse_time_signal] *)
Definition parse_time_signal : M pyval :=
  let ssi : pydict := [] in
  splice_time <- parse_splice_time ;;
  ret (VDict (dict_set "splice_time" (VDict splice_time) ssi)).

(** [__parse_segmentation_upid]: [upid_type] is not looked at. *)
Definition parse_segmentation_upid (upid_type length : Z) : M string :=
  read_hex (Z.to_nat (length * 8)).

(** The body of the [for] loop of [__parse_segmentation_descriptor]. *)
Fixpoint segmentation_components (range : list Z) (sd : pydict) : M pydict :=
  match range with
  | [] => ret sd
  | _ :: range' =>
      let component : pydict := [] in
      component_tag <- read_uint 8 ;;
      let component := dict_set "component_tag" (VInt component_tag) component in
      skip 7 ;;;
      pts_offset <- read_uint 33 ;;
      let component := dict_set "pts_offset" (VInt pts_offset) component in
      sd <- lift (dict_append "components" (VDict component) sd) ;;
      segmentation_components range' sd
  end.

(** [__parse_segmentation_descriptor] *)
Definition parse_segmentation_descriptor (tag length : Z) : M pydict :=
  let sd : pydict := [] in
  let sd := dict_set "splice_descriptor_tag" (VInt tag) sd in
  let sd := dict_set "descriptor_length" (VInt length) sd in
  identifier <- read_uint 32 ;;
  let sd := dict_set "identifier" (VInt identifier) sd in
  let descriptor_data_length := length - 4 in
  segmentation_event_id <- read_uint 32 ;;
  let sd := dict_set "segmentation_event_id" (VInt segmentation_event_id) sd in
  segmentation_event_cancel_indicator <- read_bool ;;
  let sd :=
    dict_set "segmentation_event_cancel_indicator"
             (VBool segmentation_event_cancel_indicator) sd in
  skip 7 ;;;
  if negb segmentation_event_cancel_indicator then
    program_segmentation_flag <- read_bool ;;
    let sd :=
      dict_set "program_segmentation_flag" (VBool program_segmentation_flag) sd in
    segmentation_duration_flag <- read_bool ;;
    let sd :=
      dict_set "segmentation_duration_flag" (VBool segmentation_duration_flag) sd in
    delivery_not_restricted_flag <- read_bool ;;
    let sd :=
      dict_set "delivery_not_restricted_flag"
               (VBool delivery_not_restricted_flag) sd in
    sd <-
      (if negb delivery_not_restricted_flag then
         web_delivery_allowed_flag <- read_bool ;;
         let sd :=
           dict_set "web_delivery_allowed_flag"
                    (VBool web_delivery_allowed_flag) sd in
         no_regional_blackout_flag <- read_bool ;;
         let sd :=
           dict_set "no_regional_blackout_flag"
                    (VBool no_regional_blackout_flag) sd in
         archive_allowed_flag <- read_bool ;;
         let sd := dict_set "archive_allowed_flag" (VBool archive_allowed_flag) sd in
         device_restrictions <- read_uint 2 ;;
         ret (dict_set "device_restrictions" (VInt device_restrictions) sd)
       else
         skip 5 ;;;
         ret sd) ;;
    sd <-
      (if negb program_segmentation_flag then
         component_count <- read_uint 8 ;;
         let sd := dict_set "component_count" (VInt component_count) sd in
         let sd := dict_set "components" (VList []) sd in
         segmentation_components (py_range 0 component_count) sd
       else ret sd) ;;
    sd <-
      (if segmentation_duration_flag then
         segmentation_duration <- read_uint 40 ;;
         ret (dict_set "segmentation_duration" (VInt segmentation_duration) sd)
       else ret sd) ;;
    segmentation_upid_type <- read_hex 8 ;;
    let sd := dict_set "segmentation_upid_type" (VStr segmentation_upid_type) sd in
    segmentation_upid_length <- read_uint 8 ;;
    let sd :=
      dict_set "segmentation_upid_length" (VInt segmentation_upid_length) sd in
    upid_type <- lift (int16 segmentation_upid_type) ;;
    segmentation_upid <-
      parse_segmentation_upid upid_type segmentation_upid_length ;;
    let sd := dict_set "segmentation_upid" (VStr segmentation_upid) sd in
    segmentation_type_id <- read_hex 8 ;;
    let sd := dict_set "segmentation_type_id" (VStr segmentation_type_id) sd in
    segment_num <- read_uint 8 ;;
    let sd := dict_set "segment_num" (VInt segment_num) sd in
    segments_expected <- read_uint 8 ;;
    let sd := dict_set "segments_expected" (VInt segments_expected) sd in
    sd <-
      (if existsb (String.eqb segmentation_type_id) ["34"; "36"] then
         sub_segment_num <- read_uint 8 ;;
         let sd := dict_set "sub_segment_num" (VInt sub_segment_num) sd in
         sub_segments_expected <- read_uint 8 ;;
         ret (dict_set "sub_segments_expected" (VInt sub_segments_expected) sd)
       else ret sd) ;;
    ret (match dict_get segmentation_type_id SEGMENTATION_TYPE_IDS with
         | Some label => dict_set "segmentation_type_id" (VStr label) sd
         | None => sd
         end)
  else
    ret sd.

(** One turn of the [while] loop of [__parse_splice_descriptors]: the
    descriptor it appends to [results] and the new value of [length]. *)
Definition descriptor_step (length : Z) : M (pyval * Z) :=
  splice_descriptor_tag <- read_uint 8 ;;
  ended <- at_end ;;
  if ended then
    ret (VDict [("splice_descriptor_tag", VInt splice_descriptor_tag);
                ("descriptor_length", VInt 0)],
         0)
  else
    descriptor_length <- read_uint 8 ;;
    let length := length - (descriptor_length + 2) in
    if splice_descriptor_tag =? SpliceDescriptor_value SEGMENTATION_DESCRIPTOR then
      splice_descriptor <-
        parse_segmentation_descriptor splice_descriptor_tag descriptor_length ;;
      ret (VDict splice_descriptor, length)
    else
      ret (VDict [("splice_descriptor_tag", VInt splice_descriptor_tag);
                  ("descriptor_length", VInt descriptor_length)],
           length).

(** How the [while] loop ends: it falls through with [results], or an
    exception leaves it while the local [results] holds what was appended
    so far, or the bound on its turns is used up. *)
Inductive loop_outcome : Type :=
| Finished (results : list pyval) (s : bitarray)
| Raised (e : exn) (results : list pyval)
| Exhausted.

(** [while length:] runs as long as [length] is not zero, negative values
    included. *)
Fixpoint descriptors_loop (fuel : nat) (length : Z) (results : list pyval)
    (s : bitarray) : loop_outcome :=
  if length =? 0 then Finished results s
  else
    match fuel with
    | O => Exhausted
    | S fuel' =>
        match descriptor_step length s with
        | OK ((splice_descriptor, length'), s') =>
            descriptors_loop fuel' length' (results ++ [splice_descriptor]) s'
        | Err e => Raised e results
        | OutOfFuel => Exhausted
        end
    end.

(** [__parse_splice_descriptors].  Every turn of the loop reads the tag
    first, so one more turn than there are bits left is bound enough. *)
Definition parse_splice_descriptors (length : Z) : M (list pyval) :=
  fun s =>
    match descriptors_loop (S (remaining s)) length [] s with
    | Finished results s' => OK (results, s')
    | Raised e _ => Err e
    | Exhausted => OutOfFuel
    end.

(** [parse], lines 95 to 129: the header, the splice command, the loop
    length and the [None] that [splice_descriptors] starts as.  The second
    component is the value of [splice_descriptor_loop_length]. *)
Definition parse_header_and_command (py : python) : M (pydict * Z) :=
  table_id <- read_uint 8 ;;
  if negb (table_id =? 252) then raise (InvalidTableId table_id)
  else
    let sis : pydict := [] in
    section_syntax_indicator <- read_bool ;;
    let sis :=
      dict_set "section_syntax_indicator" (VBool section_syntax_indicator) sis in
    private_indicator <- read_bool ;;
    let sis := dict_set "private_indicator" (VBool private_indicator) sis in
    skip 2 ;;;
    section_length <- read_uint 12 ;;
    let sis := dict_set "section_length" (VInt section_length) sis in
    protocol_version <- read_uint 8 ;;
    let sis := dict_set "protocol_version" (VInt protocol_version) sis in
    encrypted_packet <- read_bool ;;
    let sis := dict_set "encrypted_packet" (VBool encrypted_packet) sis in
    encryption_algorithm <- read_uint 6 ;;
    let sis := dict_set "encryption_algorithm" (VInt encryption_algorithm) sis in
    pts_adjustment <- read_uint 33 ;;
    let sis := dict_set "pts_adjustment" (VInt pts_adjustment) sis in
    cw_index <- read_uint 8 ;;
    let sis := dict_set "cw_index" (VInt cw_index) sis in
    tier <- read_hex 12 ;;
    let sis := dict_set "tier" (VStr tier) sis in
    splice_command_length <- read_uint 12 ;;
    let sis := dict_set "splice_command_length" (VInt splice_command_length) sis in
    splice_command_type <- read_uint 8 ;;
    let sis := dict_set "splice_command_type" (VInt splice_command_type) sis in
    splice_command <-
      (if splice_command_type =? 5 then parse_splice_insert py
       else if splice_command_type =? 6 then parse_time_signal
       else raise (UnsupportedSpliceCommand splice_command_type)) ;;
    let sis := dict_set "splice_command" splice_command sis in
    splice_descriptor_loop_length <- read_uint 16 ;;
    let sis :=
      dict_set "splice_descriptor_loop_length"
               (VInt splice_descriptor_loop_length) sis in
    let sis := dict_set "splice_descriptors" VNone sis in
    ret (sis, splice_descriptor_loop_length).

(** [parse], lines 131 to 139: the descriptor loop under [try], its
    exception printed and dropped.  The result is the section and what was
    printed. *)
Definition parse_descriptors_into (sis : pydict)
    (splice_descriptor_loop_length : Z) (s : bitarray)
    : result (pydict * list exn) :=
  if splice_descriptor_loop_length >? 0 then
    match parse_splice_descriptors splice_descriptor_loop_length s with
    | OK (splice_descriptors, _) =>
        OK (dict_set "splice_descriptors" (VList splice_descriptors) sis, [])
    | Err err => OK (sis, [err])
    | OutOfFuel => OutOfFuel
    end
  else OK (sis, []).

(** [SCTE35_Parser().parse(input_bytes)] *)
Definition parse (py : python) (input_bytes : list byte)
    : result (pydict * list exn) :=
  match parse_header_and_command py (BitString input_bytes) with
  | OK ((sis, splice_descriptor_loop_length), s) =>
      parse_descriptors_into sis splice_descriptor_loop_length s
  | Err e => Err e
  | OutOfFuel => OutOfFuel
  end.

(** * Vocabulary of the statements *)

(** [forward m]: [m] never reports [OutOfFuel], and a successful run leaves
    the buffer as it was and the position no further back. *)
Definition forward {A} (m : M A) : Prop :=
  (forall s, m s <> OutOfFuel) /\
  (forall s a s', m s = OK (a, s') ->
                  data s' = data s /\ (pos s <= pos s')%nat).

(** [{"splice_descriptor_tag": tag, "descriptor_length": length}] *)
Definition stub (tag length : Z) : pyval :=
  VDict [("splice_descriptor_tag", VInt tag); ("descriptor_length", VInt length)].

(** A decoded component: its 8-bit tag and, under [splice_time], a decoded
    splice time when [splice_immediate_flag] is set and [None] otherwise. *)
Definition decoded_component (splice_immediate_flag : bool) (c : pyval) : Prop :=
  exists tag,
    0 <= tag < 256 /\
    if splice_immediate_flag
    then exists splice_time,
           c = VDict [("tag", VInt tag); ("splice_time", VDict splice_time)]
    else c = VDict [("tag", VInt tag); ("splice_time", VNone)].

(** The label a raw type id is replaced by, or the raw id when the table
    has none. *)
Definition type_id_label (raw : string) : string :=
  match dict_get raw SEGMENTATION_TYPE_IDS with
  | Some label => label
  | None => raw
  end.

(** The record [__parse_segmentation_descriptor] returns for a cancelled
    event. *)
Definition cancelled_segmentation_record (tag length identifier event_id : Z)
  : pydict :=
  [("splice_descriptor_tag", VInt tag);
   ("descriptor_length", VInt length);
   ("identifier", VInt identifier);
   ("segmentation_event_id", VInt event_id);
   ("segmentation_event_cancel_indicator", VBool true)].

(** The record it returns otherwise, from the values read: the optional
    parts are there or not after the flags and the raw type id. *)
Definition segmentation_record (tag length identifier event_id : Z)
    (program_segmentation_flag segmentation_duration_flag
       delivery_not_restricted_flag : bool)
    (web_delivery_allowed_flag no_regional_blackout_flag
       archive_allowed_flag : bool) (device_restrictions : Z)
    (component_count : Z) (components : list pyval)
    (segmentation_duration : Z)
    (upid_type : string) (upid_length : Z) (upid : string)
    (raw_type_id : string) (segment_num segments_expected : Z)
    (sub_segment_num sub_segments_expected : Z) : pydict :=
  [("splice_descriptor_tag", VInt tag);
   ("descriptor_length", VInt length);
   ("identifier", VInt identifier);
   ("segmentation_event_id", VInt event_id);
   ("segmentation_event_cancel_indicator", VBool false);
   ("program_segmentation_flag", VBool program_segmentation_flag);
   ("segmentation_duration_flag", VBool segmentation_duration_flag);
   ("delivery_not_restricted_flag", VBool delivery_not_restricted_flag)] ++
  (if delivery_not_restricted_flag then []
   else [("web_delivery_allowed_flag", VBool web_delivery_allowed_flag);
         ("no_regional_blackout_flag", VBool no_regional_blackout_flag);
         ("archive_allowed_flag", VBool archive_allowed_flag);
         ("device_restrictions", VInt device_restrictions)]) ++
  (if program_segmentation_flag then []
   else [("component_count", VInt component_count);
         ("components", VList components)]) ++
  (if segmentation_duration_flag
   then [("segmentation_duration", VInt segmentation_duration)]
   else []) ++
  [("segmentation_upid_type", VStr upid_type);
   ("segmentation_upid_length", VInt upid_length);
   ("segmentation_upid", VStr upid);
   ("segmentation_type_id", VStr (type_id_label raw_type_id));
   ("segment_num", VInt segment_num);
   ("segments_expected", VInt segments_expected)] ++
  (if existsb (String.eqb raw_type_id) ["34"; "36"]
   then [("sub_segment_num", VInt sub_segment_num);
         ("sub_segments_expected", VInt sub_segments_expected)]
   else []).

(** The bytes a segmentation descriptor that is not cancelled takes from
    the buffer, after its tag and length bytes. *)
Definition segmentation_record_bytes
    (program_segmentation_flag segmentation_duration_flag : bool)
    (component_count upid_length : Z) (raw_type_id : string) : nat :=
  (15
   + (if program_segmentation_flag then 0 else 1 + 6 * Z.to_nat component_count)
   + (if segmentation_duration_flag then 5 else 0)
   + Z.to_nat upid_length
   + (if existsb (String.eqb raw_type_id) ["34"; "36"] then 2 else 0))%nat.

(** A component of a segmentation descriptor. *)
Definition segmentation_component (c : pyval) : Prop :=
  exists component_tag pts_offset,
    0 <= component_tag < 256 /\ 0 <= pts_offset < 2 ^ 33 /\
    c = VDict [("component_tag", VInt component_tag);
               ("pts_offset", VInt pts_offset)].

(** The record [__parse_splice_insert] returns when the event is not
    cancelled, from the values read. *)
Definition splice_insert_record (splice_event_id : Z)
    (out_of_network_indicator program_splice_flag duration_flag
       splice_immediate_flag : bool)
    (splice_time : pydict) (component_count : Z) (components : list pyval)
    (break_duration : pydict)
    (unique_program_id avail_num avails_expected : Z) : pydict :=
  [("splice_id", VInt splice_event_id);
   ("components", VList components);
   ("splice_event_cancel_indicator", VBool false);
   ("out_of_network_indicator", VBool out_of_network_indicator);
   ("program_splice_flag", VBool program_splice_flag);
   ("duration_flag", VBool duration_flag);
   ("splice_immediate_flag", VBool splice_immediate_flag)] ++
  (if program_splice_flag && negb splice_immediate_flag
   then [("splice_time", VDict splice_time)] else []) ++
  (if program_splice_flag then []
   else [("component_count", VInt component_count)]) ++
  (if duration_flag then [("break_duration", VDict break_duration)] else []) ++
  [("unique_program_id", VInt unique_program_id);
   ("avail_num", VInt avail_num);
   ("avails_expected", VInt avails_expected)].

(** The section [parse] returns, from the values read, the decoded command
    and what [splice_descriptors] is bound to. *)
Definition section_record (section_syntax_indicator private_indicator : bool)
    (section_length protocol_version : Z) (encrypted_packet : bool)
    (encryption_algorithm pts_adjustment cw_index : Z) (tier : string)
    (splice_command_length splice_command_type : Z) (splice_command : pyval)
    (splice_descriptor_loop_length : Z) (splice_descriptors : pyval) : pydict :=
  [("section_syntax_indicator", VBool section_syntax_indicator);
   ("private_indicator", VBool private_indicator);
   ("section_length", VInt section_length);
   ("protocol_version", VInt protocol_version);
   ("encrypted_packet", VBool encrypted_packet);
   ("encryption_algorithm", VInt encryption_algorithm);
   ("pts_adjustment", VInt pts_adjustment);
   ("cw_index", VInt cw_index);
   ("tier", VStr tier);
   ("splice_command_length", VInt splice_command_length);
   ("splice_command_type", VInt splice_command_type);
   ("splice_command", splice_command);
   ("splice_descriptor_loop_length", VInt splice_descriptor_loop_length);
   ("splice_descriptors", splice_descriptors)].

(** What every element of the list the descriptor loop returns is: a
    dictionary with the tag byte and the length byte it was read with. *)
Definition descriptor_shape (d : pyval) : Prop :=
  exists fields tag length,
    d = VDict fields /\
    0 <= tag < 256 /\ 0 <= length < 256 /\
    dict_get "splice_descriptor_tag" fields = Some (VInt tag) /\
    dict_get "descriptor_length" fields = Some (VInt length) /\
    (tag <> 2 -> d = stub tag length).

(** [inside m]: a successful run of [m] that starts inside the buffer
    ends inside it. *)
Definition inside {A} (m : M A) : Prop :=
  forall s a s', m s = OK (a, s') ->
                 (pos s <= len s)%nat -> (pos s' <= len s')%nat.

(** * Sections used as test vectors

    [section_header t]: the fourteen bytes up to and including
    [splice_command_type], with [section_length] 17, [tier] 0xfff,
    [splice_command_length] 5 and command type [t]. *)

Definition section_header (command_type : byte) : list byte :=
  [xfc; x30; x11; x00; x00; x00; x00; x00; x00; x00; xff; xf0; x05;
   command_type].

(** A [time_signal] command without a time: one byte. *)
Definition time_signal_body : list byte := [x7f].

(** What the header above decodes to, up to the command. *)
Definition decoded_header (command_type : Z) : pydict :=
  [("section_syntax_indicator", VBool false);
   ("private_indicator", VBool false);
   ("section_length", VInt 17);
   ("protocol_version", VInt 0);
   ("encrypted_packet", VBool false);
   ("encryption_algorithm", VInt 0);
   ("pts_adjustment", VInt 0);
   ("cw_index", VInt 0);
   ("tier", VStr "fff");
   ("splice_command_length", VInt 5);
   ("splice_command_type", VInt command_type)].

Definition decoded_time_signal : pyval :=
  VDict [("splice_time", VDict [("time_specified_flag", VBool false)])].

(** A loop of five bytes holding two generic descriptors: tag 0 with the
    one-byte body 07, then tag 3 with an empty body. *)
Definition two_generic_descriptors : list byte :=
  section_header x06 ++ time_signal_body ++
  [x00; x05] ++ [x00; x01; x07] ++ [x03; x00].

(** A loop length of one byte in front of the descriptors (5,0), (6,0)
    and a last lone tag byte 7. *)
Definition overshooting_descriptor : list byte :=
  section_header x06 ++ time_signal_body ++
  [x00; x01] ++ [x05; x00] ++ [x06; x00] ++ [x07].

(** The same without the last byte. *)
Definition overshooting_descriptor_short : list byte :=
  section_header x06 ++ time_signal_body ++
  [x00; x01] ++ [x05; x00] ++ [x06; x00].

(** [splice_insert], event id 1, cancel indicator set; no descriptors. *)
Definition cancelled_splice_insert : list byte :=
  section_header x05 ++ [x00; x00; x00; x01; xff] ++ [x00; x00].

(** [splice_insert], event id 1, not cancelled, [program_splice_flag] off,
    [component_count] 0, then program id, avail numbers and an empty
    descriptor loop. *)
Definition splice_insert_no_components : list byte :=
  section_header x05 ++ [x00; x00; x00; x01; x7f] ++ [x0f] ++ [x00] ++
  [x00; x01; x00; x00] ++ [x00; x00].

(** A section without descriptors. *)
Definition no_descriptors : list byte :=
  section_header x06 ++ time_signal_body ++ [x00; x00].

Definition no_descriptors_section : pydict :=
  decoded_header 6 ++
  [("splice_command", decoded_time_signal);
   ("splice_descriptor_loop_length", VInt 0);
   ("splice_descriptors", VNone)].

(** A loop length of four bytes with only the descriptor (0,0) behind it:
    the second turn reads past the end. *)
Definition truncated_loop : list byte :=
  section_header x06 ++ time_signal_body ++ [x00; x04] ++ [x00; x00].

Definition truncated_loop_section : pydict :=
  decoded_header 6 ++
  [("splice_command", decoded_time_signal);
   ("splice_descriptor_loop_length", VInt 4);
   ("splice_descriptors", VNone)].

(** The cursor of [truncated_loop] when the descriptor loop starts. *)
Definition truncated_loop_cursor : bitarray :=
  {| data := data (BitString truncated_loop); pos := 136 |}.

(** The body of a [splice_insert]: event id 1, not cancelled,
    [program_splice_flag] and [splice_immediate_flag] set, no duration,
    program id 1, avail 0 of 0. *)
Definition program_splice_insert_body : list byte :=
  [x00; x00; x00; x01; x7f] ++ [x5f] ++ [x00; x01; x00; x00].

Definition decoded_program_splice_insert : pydict :=
  [("splice_id", VInt 1);
   ("components", VList []);
   ("splice_event_cancel_indicator", VBool false);
   ("out_of_network_indicator", VBool false);
   ("program_splice_flag", VBool true);
   ("duration_flag", VBool false);
   ("splice_immediate_flag", VBool true);
   ("unique_program_id", VInt 1);
   ("avail_num", VInt 0);
   ("avails_expected", VInt 0)].

(** A segmentation descriptor body: identifier "CUEI", event id 7, not
    cancelled, program segmentation, no duration, delivery not restricted,
    a one-byte UPID of type 8, then the type id, segment 1 of 2 and what
    follows. *)
Definition segmentation_descriptor_body (type_id : byte) (rest : list byte)
  : list byte :=
  [x43; x55; x45; x49] ++ [x00; x00; x00; x07] ++ [x7f; xbf] ++
  [x08; x01; xab] ++ [type_id; x01; x02] ++ rest.

Definition decoded_segmentation_descriptor (length : Z) (type_id : string)
    (sub_segments : pydict) : pydict :=
  [("splice_descriptor_tag", VInt 2);
   ("descriptor_length", VInt length);
   ("identifier", VInt 1129661769);
   ("segmentation_event_id", VInt 7);
   ("segmentation_event_cancel_indicator", VBool false);
   ("program_segmentation_flag", VBool true);
   ("segmentation_duration_flag", VBool false);
   ("delivery_not_restricted_flag", VBool true);
   ("segmentation_upid_type", VStr "08");
   ("segmentation_upid_length", VInt 1);
   ("segmentation_upid", VStr "ab");
   ("segmentation_type_id", VStr type_id);
   ("segment_num", VInt 1);
   ("segments_expected", VInt 2)] ++ sub_segments.

(** Cursors and buffers the further properties are tried on. *)

(** A splice time with a time: flag set, six reserved bits, 33 bits of 5. *)
Definition splice_time_bytes : list byte := [xfe; x00; x00; x00; x05].

(** A break duration: [auto_return] set, 33 bits of 90000. *)
Definition break_duration_bytes : list byte := [xfe; x00; x01; x5f; x90].

(** The body of a [splice_insert] with a splice time and a break duration:
    event id 1, not cancelled, [program_splice_flag] and [duration_flag]
    set, [splice_immediate_flag] clear. *)
Definition timed_splice_insert_body : list byte :=
  [x00; x00; x00; x01; x7f] ++ [x6f] ++ splice_time_bytes ++
  break_duration_bytes ++ [x00; x01; x00; x00].

(** A segmentation descriptor body with everything optional in it:
    delivery restricted, one component, a duration, a two-byte UPID, type id
    "36" and the sub-segment numbers. *)
Definition full_segmentation_body : list byte :=
  [x43; x55; x45; x49] ++ [x00; x00; x00; x07] ++ [x7f] ++ [x56] ++
  [x01] ++ [x09; xfe; x00; x00; x00; x03] ++
  [x00; x00; x00; x00; x0a] ++
  [x08; x02; xab; xcd] ++ [x36; x01; x02] ++ [x03; x04].

(** A cancelled segmentation descriptor body. *)
Definition cancelled_segmentation_body : list byte :=
  [x43; x55; x45; x49] ++ [x00; x00; x00; x07] ++ [xff].

(** A section with a segmentation descriptor and a generic one. *)
Definition section_with_descriptors : list byte :=
  section_header x06 ++ time_signal_body ++ [x00; x14] ++
  [x02; x10] ++ segmentation_descriptor_body x22 [] ++ [x00; x00].

(** The cursor of [section_with_descriptors] at its descriptor loop. *)
Definition descriptors_cursor : bitarray :=
  {| data := data (BitString section_with_descriptors); pos := 136 |}.

(** Fourteen header bytes with command type 7. *)
Definition unsupported_section : list byte := section_header x07.

(** What the buffers above decode to. *)

Definition decoded_splice_time : pydict :=
  [("time_specified_flag", VBool true); ("pts_time", VInt 5)].

Definition decoded_break_duration : pydict :=
  [("auto_return", VBool true); ("duration", VInt 90000)].

Definition decoded_timed_splice_insert : pydict :=
  splice_insert_record 1 false true true false decoded_splice_time 0 []
    decoded_break_duration 1 0 0.

Definition decoded_full_segmentation : pydict :=
  segmentation_record 2 31 1129661769 7 false true false true false true 2
    1 [VDict [("component_tag", VInt 9); ("pts_offset", VInt 3)]] 10
    "08" 2 "abcd" "36" 1 2 3 4.

Definition decoded_descriptors : list pyval :=
  [VDict (decoded_segmentation_descriptor 16 "Break Start" []); stub 0 0].

Definition decoded_section_with_descriptors : pydict :=
  section_record false false 17 0 false 0 0 0 "fff" 5 6 decoded_time_signal
    20 (VList decoded_descriptors).

(** * Properties *)

(** ** Dictionaries *)

Section DictFacts.
Context {V : Type}.
Implicit Types (k : string) (d : list (string * V)).

Lemma dict_get_set k k' (v : V) d :
    dict_get k (dict_set k' v d) =
    if String.eqb k k' then Some v else dict_get k d.
  Proof.
    induction d as [| [k0 v0] d IH]; simpl.
    - reflexivity.
    - destruct (String.eqb_spec k' k0) as [-> | Hne]; simpl.
      + destruct (String.eqb k k0); reflexivity.
      + rewrite IH.
        destruct (String.eqb_spec k k0) as [-> | Hne'].
        * destruct (String.eqb_spec k0 k') as [E | _]; [congruence | reflexivity].
        * reflexivity.
  Qed.

Lemma dict_get_set_same k (v : V) d : dict_get k (dict_set k v d) = Some v.
  Proof. rewrite dict_get_set, String.eqb_refl. reflexivity. Qed.

Lemma dict_get_set_other k k' (v : V) d :
    String.eqb k k' = false -> dict_get k (dict_set k' v d) = dict_get k d.
  Proof. intros E. rewrite dict_get_set, E. reflexivity. Qed.

Lemma has_key_set k k' (v : V) d :
    has_key k (dict_set k' v d) = String.eqb k k' || has_key k d.
  Proof.
    unfold has_key. rewrite dict_get_set.
    destruct (String.eqb k k'); reflexivity.
  Qed.
End DictFacts.

Lemma dict_append_get k x d d' :
  dict_append k x d = OK d' ->
  exists l, dict_get k d = Some (VList l) /\
            d' = dict_set k (VList (l ++ [x])) d.
Proof.
  unfold dict_append. intros H.
  destruct (dict_get k d) as [[| | | | l |]|]; try discriminate.
  exists l. split; [reflexivity | congruence].
Qed.

(** ** Running the cursor monad *)

Lemma bind_OK {A B} (m : M A) (k : A -> M B) s r :
  bind m k s = OK r -> exists a s1, m s = OK (a, s1) /\ k a s1 = OK r.
Proof.
  unfold bind. destruct (m s) as [[a s1] | e |]; try discriminate.
  intros H. exists a, s1. split; [reflexivity | exact H].
Qed.

Lemma ret_OK {A} (a b : A) s s' : ret a s = OK (b, s') -> a = b /\ s = s'.
Proof. unfold ret. intros H. injection H as -> ->. split; reflexivity. Qed.

Lemma lift_OK {A} (r : result A) a s s' :
  lift r s = OK (a, s') -> r = OK a /\ s = s'.
Proof.
  unfold lift. destruct r; try discriminate.
  intros H. injection H as -> ->. split; reflexivity.
Qed.

(** Splits a successful run of a sequence of binds into the runs of its
    steps, oldest first. *)
Ltac run_inv H :=
  let a := fresh "a" in
  let s := fresh "s" in
  let Hm := fresh "Hrun" in
  cbv zeta in H;
  first
    [ apply bind_OK in H; destruct H as (a & s & Hm & H)
    | apply ret_OK in H; destruct H as [? ?]; subst
    | apply lift_OK in H; destruct H as [? ?]; subst ].

(** The same for one bind, with names for the value, the state and the run
    of the first step. *)
Tactic Notation "bind_inv" hyp(H) "as" ident(a) ident(s) ident(Hm) :=
  cbv zeta in H; apply bind_OK in H; destruct H as (a & s & Hm & H).

(** ** Every reader moves the cursor forward over the same buffer *)

Create HintDb forward.

Lemma forward_ret {A} (a : A) : forward (ret a).
Proof.
  split; [discriminate |].
  intros s b s' H. apply ret_OK in H. destruct H as [_ <-]. split; [reflexivity | lia].
Qed.

Lemma forward_raise {A} e : forward (@raise A e).
Proof. split; unfold raise; intros; discriminate. Qed.

Lemma forward_bind {A B} (m : M A) (k : A -> M B) :
  forward m -> (forall a, forward (k a)) -> forward (bind m k).
Proof.
  intros [Hm1 Hm2] Hk. split.
  - intros s. unfold bind. specialize (Hm1 s).
    destruct (m s) as [[a s1] | e |]; [apply Hk | discriminate | congruence].
  - intros s b s' H. apply bind_OK in H. destruct H as (a & s1 & H1 & H2).
    apply Hm2 in H1. apply (proj2 (Hk a)) in H2.
    destruct H1 as [E1 L1], H2 as [E2 L2]. split; [congruence | lia].
Qed.

Lemma forward_lift {A} (r : result A) : r <> OutOfFuel -> forward (lift r).
Proof.
  intros Hr. split.
  - intros s. unfold lift. destruct r; congruence.
  - intros s a s' H. apply lift_OK in H. destruct H as [_ <-]. split; [reflexivity | lia].
Qed.

Lemma forward_read_bits n : forward (read_bits n).
Proof.
  split; unfold read_bits; intros s.
  - destruct (_ <=? _)%nat; discriminate.
  - intros a s'. destruct (_ <=? _)%nat; [| discriminate].
    intros H. inversion H; subst; simpl. split; [reflexivity | lia].
Qed.

Lemma forward_skip n : forward (skip n).
Proof.
  split; unfold skip; intros s.
  - destruct (_ <=? _)%nat; discriminate.
  - intros a s'. destruct (_ <=? _)%nat; [| discriminate].
    intros H. inversion H; subst; simpl. split; [reflexivity | lia].
Qed.

Lemma forward_at_end : forward at_end.
Proof.
  split; unfold at_end; intros s; [discriminate |].
  intros a s' H. inversion H; subst. split; [reflexivity | lia].
Qed.

Lemma forward_if {A} (c : bool) (m1 m2 : M A) :
  forward m1 -> forward m2 -> forward (if c then m1 else m2).
Proof. destruct c; trivial. Qed.

#[local] Hint Resolve forward_ret forward_raise forward_read_bits forward_skip
  forward_at_end : forward.

Ltac forward_step :=
  first
    [ apply forward_ret | apply forward_raise | apply forward_read_bits
    | apply forward_skip | apply forward_at_end
    | apply forward_bind; [| intro]
    | apply forward_if
    | assumption ].

Lemma forward_read_uint n : forward (read_uint n).
Proof. unfold read_uint. repeat forward_step. Qed.

Lemma forward_read_bool : forward read_bool.
Proof. unfold read_bool. repeat forward_step. Qed.

Lemma forward_read_hex n : forward (read_hex n).
Proof. unfold read_hex. repeat forward_step. Qed.

#[local] Hint Resolve forward_read_uint forward_read_bool forward_read_hex
  : forward.

Lemma int16_from_fuel acc s : int16_from acc s <> OutOfFuel.
Proof.
  revert acc. induction s as [| c s IH]; intros acc; simpl; [discriminate |].
  destruct (hex_value c); [apply IH | discriminate].
Qed.

Lemma int16_fuel s : int16 s <> OutOfFuel.
Proof. destruct s; simpl; [discriminate | apply (int16_from_fuel 0 (String a s))]. Qed.

Lemma dict_append_fuel k x d : dict_append k x d <> OutOfFuel.
Proof.
  unfold dict_append.
  destruct (dict_get k d) as [[| | | | l |]|]; discriminate.
Qed.

Lemma builtin_xrange_fuel py lo hi : builtin_xrange py lo hi <> OutOfFuel.
Proof. destruct py; discriminate. Qed.

Ltac forward_auto :=
  repeat first
    [ progress cbv zeta
    | solve [auto with forward nocore]
    | forward_step
    | apply forward_lift;
        first [ apply int16_fuel | apply dict_append_fuel
              | apply builtin_xrange_fuel ]
    | match goal with
      | |- forward (match ?x with Some _ => _ | None => _ end) => destruct x
      end ].

Lemma forward_parse_splice_time : forward parse_splice_time.
Proof. unfold parse_splice_time. forward_auto. Qed.

Lemma forward_parse_break_duration : forward parse_break_duration.
Proof. unfold parse_break_duration. forward_auto. Qed.

#[local] Hint Resolve forward_parse_splice_time forward_parse_break_duration
  : forward.

Lemma forward_splice_insert_components range imm ssi :
  forward (splice_insert_components range imm ssi).
Proof.
  revert ssi. induction range as [| i range IH]; intros ssi; simpl.
  - forward_auto.
  - forward_auto.
Qed.

#[local] Hint Resolve forward_splice_insert_components : forward.

Lemma forward_parse_splice_insert py : forward (parse_splice_insert py).
Proof. unfold parse_splice_insert. forward_auto. Qed.

Lemma forward_parse_time_signal : forward parse_time_signal.
Proof. unfold parse_time_signal. forward_auto. Qed.

Lemma forward_segmentation_components range sd :
  forward (segmentation_components range sd).
Proof.
  revert sd. induction range as [| i range IH]; intros sd; simpl.
  - forward_auto.
  - forward_auto.
Qed.

#[local] Hint Resolve forward_parse_splice_insert forward_parse_time_signal
  forward_segmentation_components : forward.

Lemma forward_parse_segmentation_descriptor tag length :
  forward (parse_segmentation_descriptor tag length).
Proof.
  unfold parse_segmentation_descriptor, parse_segmentation_upid. forward_auto.
Qed.

#[local] Hint Resolve forward_parse_segmentation_descriptor : forward.

Lemma forward_descriptor_step length : forward (descriptor_step length).
Proof. unfold descriptor_step. forward_auto. Qed.

Lemma forward_parse_header_and_command py : forward (parse_header_and_command py).
Proof. unfold parse_header_and_command. forward_auto. Qed.

(** ** The descriptor loop terminates *)

Lemma read_bits_OK n s bits s' :
  read_bits n s = OK (bits, s') ->
  (pos s + n <= len s)%nat /\
  s' = {| data := data s; pos := (pos s + n)%nat |} /\
  bits = firstn n (skipn (pos s) (data s)).
Proof.
  unfold read_bits.
  destruct (Nat.leb_spec (pos s + n) (len s)) as [Hle | Hgt]; [| discriminate].
  intros Hr. inversion Hr; subst. auto.
Qed.

Lemma read_uint_OK n s v s' :
  read_uint n s = OK (v, s') ->
  (pos s + n <= len s)%nat /\
  s' = {| data := data s; pos := (pos s + n)%nat |} /\
  v = bits_to_Z (firstn n (skipn (pos s) (data s))).
Proof.
  unfold read_uint. intros H. run_inv H. run_inv H.
  apply read_bits_OK in Hrun. destruct Hrun as (? & ? & ?). subst. auto.
Qed.

Lemma read_hex_OK n s v s' :
  read_hex n s = OK (v, s') ->
  (pos s + n <= len s)%nat /\
  s' = {| data := data s; pos := (pos s + n)%nat |} /\
  v = hex_of_bits (firstn n (skipn (pos s) (data s))).
Proof.
  unfold read_hex. intros H. run_inv H. run_inv H.
  apply read_bits_OK in Hrun. destruct Hrun as (? & ? & ?). subst. auto.
Qed.

(** A turn of the loop that succeeds has read at least the tag byte. *)
Lemma descriptor_step_consumes length s r s' :
  descriptor_step length s = OK (r, s') ->
  data s' = data s /\ (pos s + 8 <= pos s')%nat /\ (pos s + 8 <= len s)%nat.
Proof.
  unfold descriptor_step. intros H. run_inv H.
  apply read_uint_OK in Hrun. destruct Hrun as (Hlen & -> & _).
  match type of H with
  | ?k ?st = OK _ =>
      assert (Hk : forward k) by (forward_auto)
  end.
  apply (proj2 Hk) in H. simpl in H. destruct H as [E L].
  repeat split; [exact E | exact L | exact Hlen].
Qed.

Lemma descriptors_loop_fuel fuel :
  forall length results s,
    (remaining s < fuel)%nat ->
    descriptors_loop fuel length results s <> Exhausted.
Proof.
  induction fuel as [| fuel IH]; intros length results s Hlt; [lia |].
  simpl. destruct (length =? 0); [discriminate |].
  pose proof (proj1 (forward_descriptor_step length) s) as Hfuel.
  destruct (descriptor_step length s) as [[[d length'] s'] | e |] eqn:Hstep;
    [| discriminate | congruence].
  apply descriptor_step_consumes in Hstep. destruct Hstep as (E & L1 & L2).
  apply IH. unfold remaining, len in *. rewrite E. lia.
Qed.

Lemma descriptors_loop_forward fuel :
  forall length results s results' s',
    descriptors_loop fuel length results s = Finished results' s' ->
    data s' = data s /\ (pos s <= pos s')%nat.
Proof.
  induction fuel as [| fuel IH]; intros length results s results' s'; simpl.
  - destruct (length =? 0); [| discriminate].
    intros H. inversion H; subst. split; [reflexivity | lia].
  - destruct (length =? 0).
    + intros H. inversion H; subst. split; [reflexivity | lia].
    + destruct (descriptor_step length s) as [[[d length'] s1] | e |] eqn:Hstep;
        try discriminate.
      intros H. apply IH in H. apply descriptor_step_consumes in Hstep.
      destruct H as [E L], Hstep as (E1 & L1 & _). split; [congruence | lia].
Qed.

Lemma forward_parse_splice_descriptors length :
  forward (parse_splice_descriptors length).
Proof.
  split; unfold parse_splice_descriptors; intros s.
  - pose proof (descriptors_loop_fuel (S (remaining s)) length [] s
                  (Nat.lt_succ_diag_r _)) as H.
    destruct (descriptors_loop _ _ _ _); [discriminate | discriminate | congruence].
  - intros a s'.
    destruct (descriptors_loop _ _ _ _) eqn:Hloop; try discriminate.
    intros H. inversion H; subst.
    apply descriptors_loop_forward in Hloop. exact Hloop.
Qed.

(** [__parse_splice_descriptors] returns a list or raises: the bound on the
    turns of its loop is never what stops it. *)
Lemma parse_splice_descriptors_terminates length s :
  (exists results s', parse_splice_descriptors length s = OK (results, s')) \/
  (exists e, parse_splice_descriptors length s = Err e).
Proof.
  pose proof (proj1 (forward_parse_splice_descriptors length) s) as H.
  destruct (parse_splice_descriptors length s) as [[results s'] | e |].
  - left. exists results, s'. reflexivity.
  - right. exists e. reflexivity.
  - congruence.
Qed.

(** [parse] returns a section or raises. *)
Lemma parse_never_out_of_fuel py input_bytes : parse py input_bytes <> OutOfFuel.
Proof.
  unfold parse.
  pose proof (proj1 (forward_parse_header_and_command py) (BitString input_bytes)) as H.
  destruct (parse_header_and_command py (BitString input_bytes))
    as [[[sis n] s] | e |]; [| discriminate | congruence].
  unfold parse_descriptors_into.
  destruct (n >? 0); [| discriminate].
  pose proof (proj1 (forward_parse_splice_descriptors n) s) as H'.
  destruct (parse_splice_descriptors n s) as [[ds s'] | e |];
    [discriminate | discriminate | congruence].
Qed.

(** ** The table id *)

Lemma bits_to_Z_of_byte b : bits_to_Z (bits_of_byte b) = Z.of_N (Byte.to_N b).
Proof. destruct b; reflexivity. Qed.

Lemma read_table_id b rest :
  read_uint 8 (BitString (b :: rest)) =
  OK (Z.of_N (Byte.to_N b),
      {| data := data (BitString (b :: rest)); pos := 8 |}).
Proof.
  unfold read_uint, bind, read_bits, BitString, len. simpl pos. simpl data.
  change (bits_of_byte b ++ flat_map bits_of_byte rest)
    with (N.testbit (Byte.to_N b) 7 :: N.testbit (Byte.to_N b) 6 ::
          N.testbit (Byte.to_N b) 5 :: N.testbit (Byte.to_N b) 4 ::
          N.testbit (Byte.to_N b) 3 :: N.testbit (Byte.to_N b) 2 ::
          N.testbit (Byte.to_N b) 1 :: N.testbit (Byte.to_N b) 0 ::
          flat_map bits_of_byte rest).
  simpl. unfold ret. f_equal. f_equal. apply (bits_to_Z_of_byte b).
Qed.

Lemma table_id_252 b : Z.of_N (Byte.to_N b) = 252 -> b = xfc.
Proof.
  intros H.
  assert (E : Byte.of_N (Byte.to_N b) = Byte.of_N 252).
  { f_equal. lia. }
  rewrite Byte.of_to_N in E. simpl in E. congruence.
Qed.

(** C6.  A buffer whose first byte is not 0xFC makes [parse] raise the
    table-id exception: nothing is returned, no section and no field. *)
Theorem invalid_table_id_is_fatal py b rest :
  b <> xfc ->
  parse py (b :: rest) = Err (InvalidTableId (Z.of_N (Byte.to_N b))).
Proof.
  intros Hb. unfold parse, parse_header_and_command.
  unfold bind at 1. rewrite read_table_id.
  destruct (Z.eqb_spec (Z.of_N (Byte.to_N b)) 252) as [E | _].
  - apply table_id_252 in E. contradiction.
  - reflexivity.
Qed.

Lemma invalid_table_id_is_fatal_witness :
  parse Python3 (x47 :: section_header x06) = Err (InvalidTableId 71).
Proof.
  apply (invalid_table_id_is_fatal Python3 x47 (section_header x06)).
  discriminate.
Defined.

(** ** Generic descriptors: the body is not skipped *)

(** A turn of the loop on a descriptor that is not a segmentation
    descriptor, with a length byte to read, leaves the cursor right after
    the length byte, sixteen bits on, whatever the length says. *)
Lemma generic_descriptor_step length s tag s1 descriptor_length s2 :
  read_uint 8 s = OK (tag, s1) ->
  pos s1 <> len s1 ->
  read_uint 8 s1 = OK (descriptor_length, s2) ->
  tag <> 2 ->
  descriptor_step length s =
    OK ((stub tag descriptor_length, length - (descriptor_length + 2)), s2) /\
  pos s2 = (pos s + 16)%nat.
Proof.
  intros Htag Hend Hlen Hne. split.
  - unfold descriptor_step. unfold bind at 1. rewrite Htag.
    unfold bind at 1, at_end.
    destruct (Nat.eqb_spec (pos s1) (len s1)) as [E | _]; [contradiction |].
    unfold bind at 1. rewrite Hlen.
    destruct (Z.eqb_spec tag (SpliceDescriptor_value SEGMENTATION_DESCRIPTOR))
      as [E | _]; [contradiction |].
    reflexivity.
  - apply read_uint_OK in Htag, Hlen.
    destruct Htag as (_ & -> & _), Hlen as (_ & -> & _). simpl. lia.
Qed.

(** C1.  The code does not skip the body of a generic descriptor: on
    [two_generic_descriptors] the second turn of the loop takes the body
    byte 07 of the first descriptor for a tag and the tag 3 of the second
    for a length, and the descriptors come out as (0,1), (7,3), (0,0)
    where the buffer holds (0,1), (3,0). *)
Theorem generic_descriptor_body_not_skipped :
  parse Python3 two_generic_descriptors =
    OK (decoded_header 6 ++
        [("splice_command", decoded_time_signal);
         ("splice_descriptor_loop_length", VInt 5);
         ("splice_descriptors", VList [stub 0 1; stub 7 3; stub 0 0])],
        []).
Proof. vm_compute. reflexivity. Qed.

(** ** The loop budget *)

(** C4.  A negative budget does not end the loop.  On
    [overshooting_descriptor] the first descriptor takes the budget from 1
    to -1; the loop goes on for two more turns, to -3 and then to the end of
    the buffer.  On [overshooting_descriptor_short] it goes on until a read
    past the end raises. *)
Theorem negative_budget_keeps_looping :
  parse Python3 overshooting_descriptor =
    OK (decoded_header 6 ++
        [("splice_command", decoded_time_signal);
         ("splice_descriptor_loop_length", VInt 1);
         ("splice_descriptors", VList [stub 5 0; stub 6 0; stub 7 0])],
        []) /\
  parse Python3 overshooting_descriptor_short =
    OK (decoded_header 6 ++
        [("splice_command", decoded_time_signal);
         ("splice_descriptor_loop_length", VInt 1);
         ("splice_descriptors", VNone)],
        [ReadError]).
Proof. split; vm_compute; reflexivity. Qed.

(** The budget after each turn, for the record of the evaluation above. *)
Lemma overshooting_descriptor_budgets :
  exists s0 s1 s2 s3,
    parse_header_and_command Python3 (BitString overshooting_descriptor) =
      OK ((decoded_header 6 ++
           [("splice_command", decoded_time_signal);
            ("splice_descriptor_loop_length", VInt 1);
            ("splice_descriptors", VNone)], 1), s0) /\
    descriptor_step 1 s0 = OK ((stub 5 0, -1), s1) /\
    descriptor_step (-1) s1 = OK ((stub 6 0, -3), s2) /\
    descriptor_step (-3) s2 = OK ((stub 7 0, 0), s3).
Proof.
  do 4 eexists. repeat split; vm_compute; reflexivity.
Qed.

(** ** splice_insert with the cancel indicator set *)

(** Whatever follows, a [splice_insert] whose cancel bit is set returns
    [None]: the dictionary that was built is dropped. *)
Lemma cancelled_splice_insert_returns_None py s splice_event_id s1 s2 s3 :
  read_uint 32 s = OK (splice_event_id, s1) ->
  read_bool s1 = OK (true, s2) ->
  skip 7 s2 = OK (tt, s3) ->
  parse_splice_insert py s = OK (VNone, s3).
Proof.
  intros H1 H2 H3. unfold parse_splice_insert.
  unfold bind at 1. rewrite H1.
  unfold bind at 1. rewrite H2.
  unfold bind at 1. rewrite H3. reflexivity.
Qed.

(** C2.  The code returns no record for a cancelled [splice_insert]: the
    section's [splice_command] is [None], not a dictionary with the event
    id and the indicator. *)
Theorem cancelled_splice_insert_is_None :
  parse Python3 cancelled_splice_insert =
    OK (decoded_header 5 ++
        [("splice_command", VNone);
         ("splice_descriptor_loop_length", VInt 0);
         ("splice_descriptors", VNone)],
        []) /\
  parse Python2 cancelled_splice_insert = parse Python3 cancelled_splice_insert.
Proof. split; vm_compute; reflexivity. Qed.

(** ** splice_insert with components *)

(** C5.  Under Python 3 the component loop is never entered: looking up
    [xrange] raises [NameError], even for a count of 0, and the exception
    leaves [parse]. *)
Theorem component_loop_raises_NameError :
  parse Python3 splice_insert_no_components = Err (NameError "xrange").
Proof. vm_compute. reflexivity. Qed.

(** ** The section around the descriptor loop *)

Lemma bits_to_Z_nonneg l : 0 <= bits_to_Z l.
Proof.
  unfold bits_to_Z.
  assert (G : forall acc, 0 <= acc ->
                0 <= fold_left (fun acc b => 2 * acc + Z.b2z b) l acc).
  { induction l as [| b l IH]; intros acc Hacc; cbn [fold_left]; [exact Hacc |].
    apply IH. destruct b; unfold Z.b2z; lia. }
  apply G. lia.
Qed.

(** The first part of [parse] ends by binding the loop length it read and
    [None] for the descriptors. *)
Lemma parse_header_and_command_OK py s sis n s' :
  parse_header_and_command py s = OK ((sis, n), s') ->
  0 <= n /\
  exists sis1,
    sis = dict_set "splice_descriptors" VNone
            (dict_set "splice_descriptor_loop_length" (VInt n) sis1).
Proof.
  unfold parse_header_and_command. intros H. run_inv H.
  destruct (negb (a =? 252)); [discriminate |].
  do 14 run_inv H.
  match goal with
  | Hr : read_uint 16 _ = OK _ |- _ =>
      apply read_uint_OK in Hr; destruct Hr as (_ & _ & ->)
  end.
  apply ret_OK in H. destruct H as [E _].
  pose proof (f_equal fst E) as E1. pose proof (f_equal snd E) as E2.
  cbn [fst snd] in E1, E2. subst sis n.
  split; [apply bits_to_Z_nonneg | eexists; reflexivity].
Qed.

Lemma header_descriptors_None py s sis n s' :
  parse_header_and_command py s = OK ((sis, n), s') ->
  dict_get "splice_descriptors" sis = Some VNone /\
  dict_get "splice_descriptor_loop_length" sis = Some (VInt n).
Proof.
  intros H. apply parse_header_and_command_OK in H.
  destruct H as (_ & sis1 & ->).
  rewrite dict_get_set_same, dict_get_set_other, dict_get_set_same by reflexivity.
  split; reflexivity.
Qed.

(** C9, as stated, fails: with a loop length of 0 the field is [None], which
    is not the empty list. *)
Lemma zero_loop_length_not_empty_list :
  ~ (forall py input_bytes sis printed,
       parse py input_bytes = OK (sis, printed) ->
       dict_get "splice_descriptor_loop_length" sis = Some (VInt 0) ->
       dict_get "splice_descriptors" sis = Some (VList [])).
Proof.
  intros claim.
  assert (H : dict_get "splice_descriptors" no_descriptors_section
              = Some (VList [])).
  { apply (claim Python3 no_descriptors no_descriptors_section []).
    - vm_compute. reflexivity.
    - vm_compute. reflexivity. }
  vm_compute in H. discriminate H.
Qed.

(** C9, amended.  When the loop length decodes to 0 the descriptor loop is
    not run, nothing is printed, and [splice_descriptors] is the [None] it
    was first bound to. *)
Theorem zero_loop_length_gives_None py input_bytes sis printed :
  parse py input_bytes = OK (sis, printed) ->
  dict_get "splice_descriptor_loop_length" sis = Some (VInt 0) ->
  dict_get "splice_descriptors" sis = Some VNone /\ printed = [].
Proof.
  unfold parse. intros H Hzero.
  destruct (parse_header_and_command py (BitString input_bytes))
    as [[[sis0 n] s] | e |] eqn:Hhead; try discriminate.
  apply header_descriptors_None in Hhead. destruct Hhead as [Hnone Hlen].
  unfold parse_descriptors_into in H.
  destruct (Z.gtb_spec n 0) as [Hpos | Hle].
  - exfalso.
    assert (Hn : dict_get "splice_descriptor_loop_length" sis = Some (VInt n)).
    { destruct (parse_splice_descriptors n s) as [[ds s'] | e |];
        inversion H; subst.
      - rewrite dict_get_set_other by reflexivity. exact Hlen.
      - exact Hlen. }
    rewrite Hn in Hzero. injection Hzero as E. lia.
  - inversion H; subst. split; [exact Hnone | reflexivity].
Qed.

Lemma zero_loop_length_gives_None_witness :
  dict_get "splice_descriptors" no_descriptors_section = Some VNone /\
  @nil exn = [].
Proof.
  apply (zero_loop_length_gives_None Python3 no_descriptors).
  - vm_compute. reflexivity.
  - vm_compute. reflexivity.
Defined.

(** ** A descriptor loop that raises *)

(** On [truncated_loop] one descriptor had been decoded when the loop
    raised. *)
Lemma truncated_loop_partial :
  parse_header_and_command Python3 (BitString truncated_loop) =
    OK ((truncated_loop_section, 4), truncated_loop_cursor) /\
  descriptors_loop (S (remaining truncated_loop_cursor)) 4 []
    truncated_loop_cursor = Raised ReadError [stub 0 0] /\
  parse Python3 truncated_loop = OK (truncated_loop_section, [ReadError]).
Proof. repeat split; vm_compute; reflexivity. Qed.

(** C3, as stated, fails: when the loop raises with [partial] appended so
    far, the field does not hold [partial]. *)
Lemma raising_loop_drops_partial_results :
  ~ (forall py input_bytes sis n s e partial,
       parse_header_and_command py (BitString input_bytes) = OK ((sis, n), s) ->
       descriptors_loop (S (remaining s)) n [] s = Raised e partial ->
       exists section printed,
         parse py input_bytes = OK (section, printed) /\
         dict_get "splice_descriptors" section = Some (VList partial)).
Proof.
  intros claim.
  destruct truncated_loop_partial as (Hhead & Hloop & Hparse).
  destruct (claim Python3 truncated_loop _ _ _ _ _ Hhead Hloop)
    as (section & printed & Hparse' & Hfield).
  rewrite Hparse in Hparse'. injection Hparse' as <- <-.
  vm_compute in Hfield. discriminate Hfield.
Qed.

(** C3, amended.  When the descriptor loop raises, [parse] still returns
    the section exactly as the header and the command left it, prints the
    exception, and [splice_descriptors] stays [None]: what the loop had
    decoded is dropped. *)
Theorem raising_loop_keeps_section py input_bytes sis n s e partial :
  parse_header_and_command py (BitString input_bytes) = OK ((sis, n), s) ->
  descriptors_loop (S (remaining s)) n [] s = Raised e partial ->
  parse py input_bytes = OK (sis, [e]) /\
  dict_get "splice_descriptors" sis = Some VNone.
Proof.
  intros Hhead Hloop. unfold parse. rewrite Hhead.
  pose proof (parse_header_and_command_OK _ _ _ _ _ Hhead) as [Hn _].
  apply header_descriptors_None in Hhead. destruct Hhead as [Hnone _].
  split; [| exact Hnone].
  unfold parse_descriptors_into, parse_splice_descriptors. rewrite Hloop.
  destruct (Z.gtb_spec n 0) as [_ | Hle]; [reflexivity |].
  assert (n = 0) by lia. subst n. simpl in Hloop. discriminate Hloop.
Qed.

Lemma raising_loop_keeps_section_witness :
  parse Python3 truncated_loop = OK (truncated_loop_section, [ReadError]) /\
  dict_get "splice_descriptors" truncated_loop_section = Some VNone.
Proof.
  apply (raising_loop_keeps_section Python3 truncated_loop
           truncated_loop_section 4 truncated_loop_cursor
           ReadError [stub 0 0]).
  - vm_compute. reflexivity.
  - vm_compute. reflexivity.
Defined.

(** ** The components of splice_insert *)

Lemma bits_to_Z_bound l : bits_to_Z l < 2 ^ Z.of_nat (List.length l).
Proof.
  unfold bits_to_Z.
  assert (G : forall acc,
             fold_left (fun acc b => 2 * acc + Z.b2z b) l acc
             < (acc + 1) * 2 ^ Z.of_nat (List.length l)).
  { induction l as [| b l IH]; intros acc; cbn [fold_left List.length].
    - change (2 ^ Z.of_nat 0) with 1. lia.
    - rewrite Nat2Z.inj_succ, Z.pow_succ_r by lia.
      specialize (IH (2 * acc + Z.b2z b)).
      assert (0 < 2 ^ Z.of_nat (List.length l)) by (apply Z.pow_pos_nonneg; lia).
      destruct b; unfold Z.b2z in *; nia. }
  specialize (G 0). lia.
Qed.

Lemma read_uint_range n s v s' :
  read_uint n s = OK (v, s') -> 0 <= v < 2 ^ Z.of_nat n.
Proof.
  intros H. apply read_uint_OK in H. destruct H as (Hle & _ & ->).
  split; [apply bits_to_Z_nonneg |].
  pose proof (bits_to_Z_bound (firstn n (skipn (pos s) (data s)))) as B.
  rewrite length_firstn, length_skipn in B. unfold len in Hle.
  replace (Nat.min n (List.length (data s) - pos s)) with n in B by lia.
  exact B.
Qed.

(** The loop appends one decoded component per element of the range to the
    list under [components], and touches no other key. *)
Lemma splice_insert_components_OK range imm :
  forall ssi s ssi' s' l,
    splice_insert_components range imm ssi s = OK (ssi', s') ->
    dict_get "components" ssi = Some (VList l) ->
    exists cs,
      List.length cs = List.length range /\
      Forall (decoded_component imm) cs /\
      dict_get "components" ssi' = Some (VList (l ++ cs)) /\
      (forall k, String.eqb k "components" = false ->
                 dict_get k ssi' = dict_get k ssi).
Proof.
  induction range as [| i range IH]; intros ssi s ssi' s' l H Hl.
  - simpl in H. apply ret_OK in H. destruct H as [<- _].
    exists []. rewrite app_nil_r. repeat split; auto.
  - simpl in H. do 3 run_inv H.
    apply lift_OK in Hrun1. destruct Hrun1 as [Happ <-].
    apply dict_append_get in Happ. destruct Happ as (l' & Hl' & ->).
    rewrite Hl in Hl'. injection Hl' as <-.
    apply IH with (l := l ++ [VDict a0]) in H;
      [| apply dict_get_set_same].
    destruct H as (cs & Hlen & Hall & Hget & Hother).
    exists (VDict a0 :: cs). repeat split.
    + simpl. rewrite Hlen. reflexivity.
    + constructor; [| exact Hall].
      exists a. split; [apply (read_uint_range 8 _ _ _ Hrun) |].
      destruct imm.
      * do 2 run_inv Hrun0. eexists. reflexivity.
      * apply ret_OK in Hrun0. destruct Hrun0 as [<- _]. reflexivity.
    + rewrite Hget, <- app_assoc. reflexivity.
    + intros k Hk. rewrite Hother by exact Hk.
      apply dict_get_set_other. exact Hk.
Qed.

Lemma py_range_length lo hi : List.length (py_range lo hi) = Z.to_nat (hi - lo).
Proof. unfold py_range. rewrite length_map, length_seq. reflexivity. Qed.

Ltac dict_get_simpl :=
  repeat first
    [ rewrite dict_get_set_same
    | rewrite dict_get_set_other by reflexivity ].

(** What a [splice_insert] that returns a dictionary holds under the keys
    of the component list: the list is there, empty when
    [program_splice_flag] is set, and otherwise of [component_count] decoded
    components. *)
Lemma parse_splice_insert_components py s ssi s' :
  parse_splice_insert py s = OK (VDict ssi, s') ->
  exists comps program_splice_flag splice_immediate_flag,
    dict_get "splice_event_cancel_indicator" ssi = Some (VBool false) /\
    dict_get "components" ssi = Some (VList comps) /\
    dict_get "program_splice_flag" ssi = Some (VBool program_splice_flag) /\
    dict_get "splice_immediate_flag" ssi = Some (VBool splice_immediate_flag) /\
    if program_splice_flag
    then comps = [] /\ dict_get "component_count" ssi = None
    else
      py = Python2 /\
      exists component_count,
        0 <= component_count < 256 /\
        dict_get "component_count" ssi = Some (VInt component_count) /\
        List.length comps = Z.to_nat component_count /\
        Forall (decoded_component splice_immediate_flag) comps.
Proof.
  unfold parse_splice_insert. intros H.
  bind_inv H as id s1 Hid. bind_inv H as cancel s2 Hcancel.
  bind_inv H as u1 s3 Hskip.
  destruct cancel; cbn [negb] in H.
  { apply ret_OK in H. destruct H as [E _]. discriminate E. }
  bind_inv H as oon s4 Hoon. bind_inv H as psf s5 Hpsf.
  bind_inv H as dur s6 Hdur. bind_inv H as imm s7 Himm.
  bind_inv H as u2 s8 Hskip4.
  bind_inv H as ssi1 s9 Htime. bind_inv H as ssi2 s10 Hcomps.
  bind_inv H as ssi3 s11 Hbreak.
  bind_inv H as upid s12 Hupid. bind_inv H as avail s13 Havail.
  bind_inv H as avails s14 Havails.
  apply ret_OK in H. destruct H as [E _]. injection E as <-.
  assert (Hbreak' : forall k, String.eqb k "break_duration" = false ->
                              dict_get k ssi3 = dict_get k ssi2).
  { intros k Hk. destruct dur.
    - bind_inv Hbreak as bd sb Hbd. apply ret_OK in Hbreak.
      destruct Hbreak as [<- _]. apply dict_get_set_other. exact Hk.
    - apply ret_OK in Hbreak. destruct Hbreak as [<- _]. reflexivity. }
  assert (Htime' : forall k, String.eqb k "splice_time" = false ->
                             dict_get k ssi1 =
                             dict_get k
                               (dict_set "splice_immediate_flag" (VBool imm)
                               (dict_set "duration_flag" (VBool dur)
                               (dict_set "program_splice_flag" (VBool psf)
                               (dict_set "out_of_network_indicator" (VBool oon)
                               (dict_set "splice_event_cancel_indicator" (VBool false)
                               (dict_set "components" (VList [])
                               (dict_set "splice_id" (VInt id) [])))))))).
  { intros k Hk. destruct (psf && negb imm).
    - bind_inv Htime as st sb Hst. apply ret_OK in Htime.
      destruct Htime as [<- _]. apply dict_get_set_other. exact Hk.
    - apply ret_OK in Htime. destruct Htime as [<- _]. reflexivity. }
  destruct psf; cbn [negb] in Hcomps.
  - apply ret_OK in Hcomps. destruct Hcomps as [<- _].
    exists [], true, imm.
    dict_get_simpl. rewrite !Hbreak', !Htime' by reflexivity.
    repeat split; reflexivity.
  - bind_inv Hcomps as count sc Hcount. bind_inv Hcomps as range sr Hrange.
    apply lift_OK in Hrange. destruct Hrange as [Hx <-].
    destruct py; [| discriminate Hx]. injection Hx as <-.
    apply splice_insert_components_OK with (l := []) in Hcomps;
      [| rewrite dict_get_set_other, Htime' by reflexivity; reflexivity].
    destruct Hcomps as (cs & Hlen & Hall & Hget & Hother).
    rewrite py_range_length, Z.sub_0_r in Hlen.
    exists cs, false, imm.
    dict_get_simpl. rewrite !Hbreak' by reflexivity. rewrite Hget.
    rewrite !Hother by reflexivity. dict_get_simpl.
    rewrite !Htime' by reflexivity.
    repeat split; try reflexivity.
    exists count. repeat split; try reflexivity;
      [apply (read_uint_range 8 _ _ _ Hcount)
      |apply (read_uint_range 8 _ _ _ Hcount)
      |exact Hlen | exact Hall].
Qed.

(** C10.  A [splice_insert] that is not cancelled comes back as a
    dictionary with a list under [components]; with [program_splice_flag]
    set the list is the empty one it was created as. *)
Theorem splice_insert_components_always_present py s ssi s' :
  parse_splice_insert py s = OK (VDict ssi, s') ->
  dict_get "splice_event_cancel_indicator" ssi = Some (VBool false) /\
  exists comps,
    dict_get "components" ssi = Some (VList comps) /\
    (dict_get "program_splice_flag" ssi = Some (VBool true) -> comps = []).
Proof.
  intros H. apply parse_splice_insert_components in H.
  destruct H as (comps & psf & imm & Hcancel & Hcomps & Hpsf & _ & Hrest).
  split; [exact Hcancel |].
  exists comps. split; [exact Hcomps |].
  intros Hflag. rewrite Hpsf in Hflag. injection Hflag as ->.
  destruct Hrest as [-> _]. reflexivity.
Qed.

Lemma splice_insert_components_always_present_witness :
  dict_get "splice_event_cancel_indicator" decoded_program_splice_insert
    = Some (VBool false) /\
  exists comps,
    dict_get "components" decoded_program_splice_insert = Some (VList comps) /\
    (dict_get "program_splice_flag" decoded_program_splice_insert
       = Some (VBool true) -> comps = []).
Proof.
  apply (splice_insert_components_always_present Python3
           (BitString program_splice_insert_body)
           decoded_program_splice_insert
           {| data := data (BitString program_splice_insert_body); pos := 80 |}).
  vm_compute. reflexivity.
Defined.

(** Where [xrange] exists, the component loop does what it is written to
    do: with [program_splice_flag] off, [component_count] is the byte read
    and [components] holds that many decoded components, none for a count
    of 0. *)
Lemma python2_component_loop s ssi s' :
  parse_splice_insert Python2 s = OK (VDict ssi, s') ->
  dict_get "program_splice_flag" ssi = Some (VBool false) ->
  exists component_count comps splice_immediate_flag,
    0 <= component_count < 256 /\
    dict_get "component_count" ssi = Some (VInt component_count) /\
    dict_get "splice_immediate_flag" ssi = Some (VBool splice_immediate_flag) /\
    dict_get "components" ssi = Some (VList comps) /\
    List.length comps = Z.to_nat component_count /\
    Forall (decoded_component splice_immediate_flag) comps /\
    (component_count = 0 -> comps = []).
Proof.
  intros H Hflag. apply parse_splice_insert_components in H.
  destruct H as (comps & psf & imm & _ & Hcomps & Hpsf & Himm & Hrest).
  rewrite Hpsf in Hflag. injection Hflag as ->.
  destruct Hrest as (_ & count & Hrange & Hcount & Hlen & Hall).
  exists count, comps, imm. repeat split; try assumption; try lia.
  intros ->. destruct comps; [reflexivity | discriminate Hlen].
Qed.

(** Two components under Python 2, [splice_immediate_flag] set, each with
    a splice time without a time. *)
Lemma python2_component_loop_example :
  parse_splice_insert Python2
    (BitString ([x00; x00; x00; x01; x7f] ++ [x1f] ++ [x02] ++
                [x09; x7f] ++ [x0a; x7f] ++ [x00; x01; x00; x00])) =
  OK (VDict
        [("splice_id", VInt 1);
         ("components",
          VList
            [VDict [("tag", VInt 9);
                    ("splice_time", VDict [("time_specified_flag", VBool false)])];
             VDict [("tag", VInt 10);
                    ("splice_time", VDict [("time_specified_flag", VBool false)])]]);
         ("splice_event_cancel_indicator", VBool false);
         ("out_of_network_indicator", VBool false);
         ("program_splice_flag", VBool false);
         ("duration_flag", VBool false);
         ("splice_immediate_flag", VBool true);
         ("component_count", VInt 2);
         ("unique_program_id", VInt 1);
         ("avail_num", VInt 0);
         ("avails_expected", VInt 0)],
      {| data := flat_map bits_of_byte
                   ([x00; x00; x00; x01; x7f] ++ [x1f] ++ [x02] ++
                    [x09; x7f] ++ [x0a; x7f] ++ [x00; x01; x00; x00]);
         pos := 120 |}).
Proof. vm_compute. reflexivity. Qed.

(** ** The segmentation type id *)

(** The component loop of the segmentation descriptor binds no key but
    [components]. *)
Lemma segmentation_components_other range :
  forall sd s sd' s',
    segmentation_components range sd s = OK (sd', s') ->
    forall k, String.eqb k "components" = false ->
              dict_get k sd' = dict_get k sd.
Proof.
  induction range as [| i range IH]; intros sd s sd' s' H k Hk.
  - simpl in H. apply ret_OK in H. destruct H as [<- _]. reflexivity.
  - simpl in H.
    bind_inv H as tag s1 Htag. bind_inv H as u s2 Hskip.
    bind_inv H as pts s3 Hpts. bind_inv H as sd1 s4 Happ.
    apply lift_OK in Happ. destruct Happ as [Happ <-].
    apply dict_append_get in Happ. destruct Happ as (l & _ & ->).
    rewrite (IH _ _ _ _ H k Hk). apply dict_get_set_other. exact Hk.
Qed.

Lemma in_34_36 raw :
  existsb (String.eqb raw) ["34"; "36"] = true <-> raw = "34" \/ raw = "36".
Proof.
  cbn [existsb]. rewrite !orb_true_iff, !String.eqb_eq. intuition discriminate.
Qed.

(** Records what a successful run of a step tells about the buffer and the
    position. *)
Ltac forward_fact H :=
  match type of H with
  | ?m ?s = OK (_, ?s') =>
      let F := fresh "F" in
      assert (F : data s' = data s /\ (pos s <= pos s')%nat)
        by (refine (proj2 (_ : forward m) _ _ _ H); forward_auto)
  end.

(** What a segmentation descriptor that is not cancelled holds: [raw], the
    two hex digits read for the type id from the same buffer further on;
    under [segmentation_type_id] the label of [raw] in the table, or [raw]
    itself when the table does not have it; and the two sub-segment keys
    exactly when [raw] is one of "34" and "36". *)
Lemma parse_segmentation_descriptor_type_id tag length s sd s' :
  parse_segmentation_descriptor tag length s = OK (sd, s') ->
  dict_get "segmentation_event_cancel_indicator" sd = Some (VBool false) ->
  exists s1 s2 raw,
    data s1 = data s /\ (pos s <= pos s1)%nat /\
    read_hex 8 s1 = OK (raw, s2) /\
    dict_get "segmentation_type_id" sd =
      Some (VStr (match dict_get raw SEGMENTATION_TYPE_IDS with
                  | Some label => label
                  | None => raw
                  end)) /\
    has_key "sub_segment_num" sd = existsb (String.eqb raw) ["34"; "36"] /\
    has_key "sub_segments_expected" sd = existsb (String.eqb raw) ["34"; "36"].
Proof.
  unfold parse_segmentation_descriptor. intros H Hcancel.
  bind_inv H as ident s1 Hident. bind_inv H as event s2 Hevent.
  bind_inv H as cancel s3 Hc. bind_inv H as u1 s4 Hskip.
  destruct cancel; cbn [negb] in H.
  { apply ret_OK in H. destruct H as [<- _].
    vm_compute in Hcancel. discriminate Hcancel. }
  clear Hcancel.
  bind_inv H as psf s5 Hpsf. bind_inv H as sdf s6 Hsdf.
  bind_inv H as dnr s7 Hdnr.
  bind_inv H as sd1 s8 Hdelivery. bind_inv H as sd2 s9 Hcomps.
  bind_inv H as sd3 s10 Hduration.
  bind_inv H as upid_type s11 Hutype. bind_inv H as upid_len s12 Hulen.
  bind_inv H as upid_int s13 Huint. bind_inv H as upid s14 Hupid.
  bind_inv H as raw s15 Hraw.
  bind_inv H as seg_num s16 Hnum. bind_inv H as seg_exp s17 Hexp.
  bind_inv H as sd4 s18 Hsub.
  apply ret_OK in H. destruct H as [<- _].
  exists s14, s15, raw.
  (* the buffer and the position at the read of the type id *)
  forward_fact Hident. forward_fact Hevent. forward_fact Hc. forward_fact Hskip.
  forward_fact Hpsf. forward_fact Hsdf. forward_fact Hdnr.
  forward_fact Hdelivery. forward_fact Hcomps. forward_fact Hduration.
  forward_fact Hutype. forward_fact Hulen. forward_fact Huint.
  forward_fact Hupid.
  split; [intuition congruence |]. split; [intuition lia |].
  split; [exact Hraw |].
  (* the keys of interest are bound by none of the optional parts *)
  assert (Hd : forall k,
             existsb (String.eqb k)
               ["web_delivery_allowed_flag"; "no_regional_blackout_flag";
                "archive_allowed_flag"; "device_restrictions";
                "component_count"; "components"; "segmentation_duration"]
             = false ->
             dict_get k sd3 =
             dict_get k
               (dict_set "delivery_not_restricted_flag" (VBool dnr)
               (dict_set "segmentation_duration_flag" (VBool sdf)
               (dict_set "program_segmentation_flag" (VBool psf)
               (dict_set "segmentation_event_cancel_indicator" (VBool false)
               (dict_set "segmentation_event_id" (VInt event)
               (dict_set "identifier" (VInt ident)
               (dict_set "descriptor_length" (VInt length)
               (dict_set "splice_descriptor_tag" (VInt tag) []))))))))).
  { intros k Hk. cbn [existsb] in Hk.
    repeat (apply orb_false_elim in Hk; let E := fresh "E" in destruct Hk as [E Hk]).
    assert (H3 : dict_get k sd3 = dict_get k sd2).
    { destruct sdf.
      - bind_inv Hduration as d sa Hd. apply ret_OK in Hduration.
        destruct Hduration as [<- _]. apply dict_get_set_other. assumption.
      - apply ret_OK in Hduration. destruct Hduration as [<- _]. reflexivity. }
    assert (H2 : dict_get k sd2 = dict_get k sd1).
    { destruct psf; cbn [negb] in Hcomps.
      - apply ret_OK in Hcomps. destruct Hcomps as [<- _]. reflexivity.
      - bind_inv Hcomps as count sa Hcount.
        rewrite (segmentation_components_other _ _ _ _ _ Hcomps k) by assumption.
        rewrite !dict_get_set_other by assumption. reflexivity. }
    rewrite H3, H2.
    destruct dnr; cbn [negb] in Hdelivery.
    - bind_inv Hdelivery as u sa Hs. apply ret_OK in Hdelivery.
      destruct Hdelivery as [<- _]. reflexivity.
    - bind_inv Hdelivery as w sa Hw. bind_inv Hdelivery as nrb sb Hnrb.
      bind_inv Hdelivery as arch sc Harch. bind_inv Hdelivery as dev sd Hdev.
      apply ret_OK in Hdelivery. destruct Hdelivery as [<- _].
      rewrite !dict_get_set_other by assumption. reflexivity. }
  assert (Hin : existsb (String.eqb raw) ["34"; "36"] = true \/
                existsb (String.eqb raw) ["34"; "36"] = false)
    by (destruct (existsb _ _); auto).
  unfold has_key.
  destruct Hin as [Hin | Hin]; rewrite Hin in Hsub |- *.
  - bind_inv Hsub as ssn sa Hssn. bind_inv Hsub as sse sb Hsse.
    apply ret_OK in Hsub. destruct Hsub as [<- _].
    destruct (dict_get raw SEGMENTATION_TYPE_IDS) as [label |];
      dict_get_simpl; repeat split; reflexivity.
  - apply ret_OK in Hsub. destruct Hsub as [<- _].
    destruct (dict_get raw SEGMENTATION_TYPE_IDS) as [label |];
      dict_get_simpl; rewrite !Hd by reflexivity; repeat split; reflexivity.
Qed.

Lemma read_hex_8 s raw s' :
  read_hex 8 s = OK (raw, s') ->
  exists b7 b6 b5 b4 b3 b2 b1 b0,
    raw = hex_of_bits [b7; b6; b5; b4; b3; b2; b1; b0].
Proof.
  intros H. apply read_hex_OK in H. destruct H as (Hle & _ & ->).
  assert (L : List.length (firstn 8 (skipn (pos s) (data s))) = 8%nat).
  { rewrite length_firstn, length_skipn. unfold len in Hle. lia. }
  destruct (firstn 8 (skipn (pos s) (data s)))
    as [| b7 [| b6 [| b5 [| b4 [| b3 [| b2 [| b1 [| b0 [| x l]]]]]]]]];
    try discriminate L.
  exists b7, b6, b5, b4, b3, b2, b1, b0. reflexivity.
Qed.

(** Among the ids two hex digits can spell, only "34" and "36" carry the
    labels of the two placement opportunity starts. *)
Lemma placement_opportunity_start_labels b7 b6 b5 b4 b3 b2 b1 b0 :
  let raw := hex_of_bits [b7; b6; b5; b4; b3; b2; b1; b0] in
  String.eqb (type_id_label raw) "Provider Placement Opportunity Start"
  || String.eqb (type_id_label raw) "Distributor Placement Opportunity Start"
  = existsb (String.eqb raw) ["34"; "36"].
Proof.
  destruct b7, b6, b5, b4, b3, b2, b1, b0; vm_compute; reflexivity.
Qed.

Lemma segmentation_descriptor_examples :
  (* "34": label substituted, sub-segment fields read *)
  parse_segmentation_descriptor 2 17
    (BitString (segmentation_descriptor_body x34 [x03; x04])) =
  OK (decoded_segmentation_descriptor 17 "Provider Placement Opportunity Start"
        [("sub_segment_num", VInt 3); ("sub_segments_expected", VInt 4)],
      {| data := data (BitString (segmentation_descriptor_body x34 [x03; x04]));
         pos := 144 |}) /\
  (* "35": no sub-segment fields, the two bytes that follow are left unread *)
  parse_segmentation_descriptor 2 17
    (BitString (segmentation_descriptor_body x35 [x03; x04])) =
  OK (decoded_segmentation_descriptor 17 "Provider Placement Opportunity End" [],
      {| data := data (BitString (segmentation_descriptor_body x35 [x03; x04]));
         pos := 128 |}) /\
  (* "22" *)
  parse_segmentation_descriptor 2 15
    (BitString (segmentation_descriptor_body x22 [])) =
  OK (decoded_segmentation_descriptor 15 "Break Start" [],
      {| data := data (BitString (segmentation_descriptor_body x22 []));
         pos := 128 |}) /\
  (* "99": not in the table *)
  parse_segmentation_descriptor 2 15
    (BitString (segmentation_descriptor_body x99 [])) =
  OK (decoded_segmentation_descriptor 15 "99" [],
      {| data := data (BitString (segmentation_descriptor_body x99 []));
         pos := 128 |}).
Proof. repeat split; vm_compute; reflexivity. Qed.

(** C7.  In a segmentation descriptor that is not cancelled, the keys
    [sub_segment_num] and [sub_segments_expected] are bound exactly when the
    two hex digits read for the type id are "34" or "36".  The test is on
    the digits as read: what ends up under [segmentation_type_id] is their
    label, and the keys are there exactly when that label is the one of
    "34" or of "36".  With "35" neither key is bound. *)
Theorem sub_segment_fields_gated_on_raw_type_id tag length s sd s' :
  parse_segmentation_descriptor tag length s = OK (sd, s') ->
  dict_get "segmentation_event_cancel_indicator" sd = Some (VBool false) ->
  exists s1 s2 raw,
    data s1 = data s /\ (pos s <= pos s1)%nat /\
    read_hex 8 s1 = OK (raw, s2) /\
    dict_get "segmentation_type_id" sd = Some (VStr (type_id_label raw)) /\
    (has_key "sub_segment_num" sd = true <-> raw = "34" \/ raw = "36") /\
    (has_key "sub_segments_expected" sd = true <-> raw = "34" \/ raw = "36") /\
    (raw = "35" ->
     has_key "sub_segment_num" sd = false /\
     has_key "sub_segments_expected" sd = false) /\
    (has_key "sub_segment_num" sd = true <->
     dict_get "segmentation_type_id" sd =
       Some (VStr "Provider Placement Opportunity Start") \/
     dict_get "segmentation_type_id" sd =
       Some (VStr "Distributor Placement Opportunity Start")).
Proof.
  intros H Hcancel.
  destruct (parse_segmentation_descriptor_type_id _ _ _ _ _ H Hcancel)
    as (s1 & s2 & raw & Hdata & Hpos & Hraw & Hid & Hnum & Hexp).
  exists s1, s2, raw.
  fold (type_id_label raw) in Hid.
  repeat (split; [assumption |]).
  rewrite Hnum, Hexp. pose proof (in_34_36 raw) as Hin.
  split; [exact Hin |]. split; [exact Hin |]. split.
  - intros ->. split; reflexivity.
  - destruct (read_hex_8 _ _ _ Hraw)
      as (b7 & b6 & b5 & b4 & b3 & b2 & b1 & b0 & Hbits).
    pose proof (placement_opportunity_start_labels b7 b6 b5 b4 b3 b2 b1 b0) as Hl.
    cbv zeta in Hl. rewrite <- Hbits in Hl. rewrite <- Hl, Hid.
    rewrite orb_true_iff, !String.eqb_eq.
    split; (intros [E | E]; [left | right]; congruence).
Qed.

Lemma sub_segment_fields_gated_on_raw_type_id_witness :
  let sd :=
    decoded_segmentation_descriptor 17 "Provider Placement Opportunity Start"
      [("sub_segment_num", VInt 3); ("sub_segments_expected", VInt 4)] in
  let s := BitString (segmentation_descriptor_body x34 [x03; x04]) in
  exists s1 s2 raw,
    data s1 = data s /\ (pos s <= pos s1)%nat /\
    read_hex 8 s1 = OK (raw, s2) /\
    dict_get "segmentation_type_id" sd = Some (VStr (type_id_label raw)) /\
    (has_key "sub_segment_num" sd = true <-> raw = "34" \/ raw = "36") /\
    (has_key "sub_segments_expected" sd = true <-> raw = "34" \/ raw = "36") /\
    (raw = "35" ->
     has_key "sub_segment_num" sd = false /\
     has_key "sub_segments_expected" sd = false) /\
    (has_key "sub_segment_num" sd = true <->
     dict_get "segmentation_type_id" sd =
       Some (VStr "Provider Placement Opportunity Start") \/
     dict_get "segmentation_type_id" sd =
       Some (VStr "Distributor Placement Opportunity Start")).
Proof.
  intros sd s.
  apply (sub_segment_fields_gated_on_raw_type_id 2 17 s sd
           {| data := data s; pos := 144 |}).
  - vm_compute. reflexivity.
  - vm_compute. reflexivity.
Defined.

(** C8.  In a segmentation descriptor that is not cancelled, what is bound
    to [segmentation_type_id] is the entry of SEGMENTATION_TYPE_IDS for the
    two hex digits read: "Break Start" for "22"; and the digits themselves
    when the table has no entry for them, as for "99". *)
Theorem segmentation_type_id_resolved_through_table tag length s sd s' :
  parse_segmentation_descriptor tag length s = OK (sd, s') ->
  dict_get "segmentation_event_cancel_indicator" sd = Some (VBool false) ->
  exists s1 s2 raw,
    data s1 = data s /\ (pos s <= pos s1)%nat /\
    read_hex 8 s1 = OK (raw, s2) /\
    dict_get "segmentation_type_id" sd =
      Some (VStr (match dict_get raw SEGMENTATION_TYPE_IDS with
                  | Some label => label
                  | None => raw
                  end)) /\
    (raw = "22" -> dict_get "segmentation_type_id" sd = Some (VStr "Break Start")) /\
    (dict_get raw SEGMENTATION_TYPE_IDS = None ->
     dict_get "segmentation_type_id" sd = Some (VStr raw)) /\
    (raw = "99" -> dict_get "segmentation_type_id" sd = Some (VStr "99")).
Proof.
  intros H Hcancel.
  destruct (parse_segmentation_descriptor_type_id _ _ _ _ _ H Hcancel)
    as (s1 & s2 & raw & Hdata & Hpos & Hraw & Hid & _ & _).
  exists s1, s2, raw.
  repeat (split; [assumption |]).
  repeat split.
  - intros ->. exact Hid.
  - intros Hnone. rewrite Hnone in Hid. exact Hid.
  - intros ->. exact Hid.
Qed.

Lemma segmentation_type_id_resolved_through_table_witness :
  let sd := decoded_segmentation_descriptor 15 "Break Start" [] in
  let s := BitString (segmentation_descriptor_body x22 []) in
  exists s1 s2 raw,
    data s1 = data s /\ (pos s <= pos s1)%nat /\
    read_hex 8 s1 = OK (raw, s2) /\
    dict_get "segmentation_type_id" sd =
      Some (VStr (match dict_get raw SEGMENTATION_TYPE_IDS with
                  | Some label => label
                  | None => raw
                  end)) /\
    (raw = "22" -> dict_get "segmentation_type_id" sd = Some (VStr "Break Start")) /\
    (dict_get raw SEGMENTATION_TYPE_IDS = None ->
     dict_get "segmentation_type_id" sd = Some (VStr raw)) /\
    (raw = "99" -> dict_get "segmentation_type_id" sd = Some (VStr "99")).
Proof.
  intros sd s.
  apply (segmentation_type_id_resolved_through_table 2 15 s sd
           {| data := data s; pos := 128 |}).
  - vm_compute. reflexivity.
  - vm_compute. reflexivity.
Defined.

(** * Further properties of the decoder *)

(** ** Reads, one at a time *)

Lemma nth_skipn_head (p : nat) (d : list bool) :
  nth p d false = match skipn p d with [] => false | b :: _ => b end.
Proof.
  revert d. induction p as [| p IH]; intros [| b d]; simpl; auto.
Qed.

Lemma read_bool_OK s b s' :
  read_bool s = OK (b, s') ->
  (pos s + 1 <= len s)%nat /\
  s' = {| data := data s; pos := (pos s + 1)%nat |} /\
  b = nth (pos s) (data s) false.
Proof.
  unfold read_bool. intros H. bind_inv H as bits s1 Hbits.
  apply ret_OK in H. destruct H as [<- <-].
  apply read_bits_OK in Hbits. destruct Hbits as (Hle & -> & ->).
  repeat split; [exact Hle |].
  rewrite nth_skipn_head.
  assert (L : (List.length (skipn (pos s) (data s)) >= 1)%nat).
  { rewrite length_skipn. unfold len in Hle. lia. }
  destruct (skipn (pos s) (data s)) as [| [|] l]; simpl in L; [lia | |];
    reflexivity.
Qed.

Lemma skip_OK n s u s' :
  skip n s = OK (u, s') ->
  (pos s + n <= len s)%nat /\ s' = {| data := data s; pos := (pos s + n)%nat |}.
Proof.
  unfold skip.
  destruct (Nat.leb_spec (pos s + n) (len s)) as [Hle | Hgt]; [| discriminate].
  intros Hr. inversion Hr; subst. auto.
Qed.

(** The other way round: a read that has the bits it asks for succeeds. *)
Lemma read_bits_eq n s :
  (pos s + n <= len s)%nat ->
  read_bits n s = OK (firstn n (skipn (pos s) (data s)),
                      {| data := data s; pos := (pos s + n)%nat |}).
Proof.
  intros H. unfold read_bits.
  destruct (Nat.leb_spec (pos s + n) (len s)); [reflexivity | lia].
Qed.

Lemma read_uint_eq n s :
  (pos s + n <= len s)%nat ->
  read_uint n s = OK (bits_to_Z (firstn n (skipn (pos s) (data s))),
                      {| data := data s; pos := (pos s + n)%nat |}).
Proof. intros H. unfold read_uint, bind. rewrite read_bits_eq by exact H. reflexivity. Qed.

Lemma read_bool_eq s :
  (pos s + 1 <= len s)%nat ->
  read_bool s = OK (nth (pos s) (data s) false,
                    {| data := data s; pos := (pos s + 1)%nat |}).
Proof.
  intros H. destruct (read_bool s) as [[b s'] | e |] eqn:E.
  - apply read_bool_OK in E. destruct E as (_ & -> & ->). reflexivity.
  - unfold read_bool, bind in E. rewrite read_bits_eq in E by exact H. discriminate E.
  - unfold read_bool, bind in E. rewrite read_bits_eq in E by exact H. discriminate E.
Qed.

Lemma read_hex_eq n s :
  (pos s + n <= len s)%nat ->
  read_hex n s = OK (hex_of_bits (firstn n (skipn (pos s) (data s))),
                     {| data := data s; pos := (pos s + n)%nat |}).
Proof. intros H. unfold read_hex, bind. rewrite read_bits_eq by exact H. reflexivity. Qed.

Lemma skip_eq n s :
  (pos s + n <= len s)%nat ->
  skip n s = OK (tt, {| data := data s; pos := (pos s + n)%nat |}).
Proof.
  intros H. unfold skip.
  destruct (Nat.leb_spec (pos s + n) (len s)); [reflexivity | lia].
Qed.

Lemma bind_run {A B} (m : M A) (k : A -> M B) s a s1 :
  m s = OK (a, s1) -> bind m k s = k a s1.
Proof. intros H. unfold bind. rewrite H. reflexivity. Qed.

(** Replaces the run of a single read by what it says about the value, the
    position and the buffer. *)
Ltac read_fact H :=
  first
    [ apply read_uint_OK in H; destruct H as (? & ? & ?)
    | apply read_bool_OK in H; destruct H as (? & ? & ?)
    | apply read_hex_OK in H; destruct H as (? & ? & ?)
    | apply skip_OK in H; destruct H as (? & ?) ];
  subst; cbn [data pos len] in *.

(** ** splice_time and break_duration *)

(** [__parse_splice_time] looks at the bit under the cursor.  When it is
    clear the record holds the flag alone and one byte is consumed; when it
    is set the record also holds [pts_time], the 33 bits that follow the
    six reserved ones, and five bytes are consumed. *)
Lemma parse_splice_time_inv s st s' :
  parse_splice_time s = OK (st, s') ->
  data s' = data s /\
  if nth (pos s) (data s) false
  then st = [("time_specified_flag", VBool true);
             ("pts_time",
              VInt (bits_to_Z (firstn 33 (skipn (pos s + 7) (data s)))))] /\
       pos s' = (pos s + 40)%nat /\
       has_key "pts_time" st = true
  else st = [("time_specified_flag", VBool false)] /\
       pos s' = (pos s + 8)%nat /\
       has_key "pts_time" st = false.
Proof.
  unfold parse_splice_time. intros H.
  bind_inv H as flag s1 Hflag. read_fact Hflag.
  destruct (nth (pos s) (data s) false).
  - bind_inv H as u s2 Hskip. bind_inv H as pts s3 Hpts.
    apply ret_OK in H. destruct H as [<- <-].
    read_fact Hskip. read_fact Hpts.
    replace (pos s + 1 + 6)%nat with (pos s + 7)%nat by lia.
    repeat split; try reflexivity. lia.
  - bind_inv H as u s2 Hskip.
    apply ret_OK in H. destruct H as [<- <-].
    read_fact Hskip. repeat split; try reflexivity. lia.
Qed.

(** X2.  [pts_time], when present, is a 33-bit value. *)
Theorem parse_splice_time_pts_range s st s' pts :
  parse_splice_time s = OK (st, s') ->
  dict_get "pts_time" st = Some (VInt pts) ->
  0 <= pts < 2 ^ 33 /\
  dict_get "time_specified_flag" st = Some (VBool true).
Proof.
  unfold parse_splice_time. intros H Hget.
  bind_inv H as flag s1 Hflag. destruct flag.
  - bind_inv H as u s2 Hskip. bind_inv H as v s3 Hpts.
    apply ret_OK in H. destruct H as [<- _].
    apply read_uint_range in Hpts.
    cbn in Hget. injection Hget as <-. split; [exact Hpts | reflexivity].
  - bind_inv H as u s2 Hskip. apply ret_OK in H. destruct H as [<- _].
    cbn in Hget. discriminate Hget.
Qed.

(** [__parse_break_duration] consumes five bytes: [auto_return] is the bit
    under the cursor and [duration] the 33 bits after the six reserved
    ones. *)
Lemma parse_break_duration_inv s bd s' :
  parse_break_duration s = OK (bd, s') ->
  bd = [("auto_return", VBool (nth (pos s) (data s) false));
        ("duration",
         VInt (bits_to_Z (firstn 33 (skipn (pos s + 7) (data s)))))] /\
  0 <= bits_to_Z (firstn 33 (skipn (pos s + 7) (data s))) < 2 ^ 33 /\
  data s' = data s /\ pos s' = (pos s + 40)%nat.
Proof.
  unfold parse_break_duration. intros H.
  bind_inv H as auto_return s1 Hauto. bind_inv H as u s2 Hskip.
  bind_inv H as duration s3 Hdur.
  apply ret_OK in H. destruct H as [<- <-].
  pose proof (read_uint_range _ _ _ _ Hdur) as Hrange.
  read_fact Hauto. read_fact Hskip. read_fact Hdur.
  replace (pos s + 1 + 6)%nat with (pos s + 7)%nat in * by lia.
  repeat split; try reflexivity; try lia.
Qed.

(** ** Rebinding keys *)

Lemma dict_set_set {V} k (v1 v2 : V) d :
  dict_set k v2 (dict_set k v1 d) = dict_set k v2 d.
Proof.
  induction d as [| [k0 v0] d IH]; simpl.
  - rewrite String.eqb_refl. reflexivity.
  - destruct (String.eqb_spec k k0) as [-> | Hne]; simpl.
    + rewrite String.eqb_refl. reflexivity.
    + destruct (String.eqb_spec k k0); [contradiction |]. rewrite IH. reflexivity.
Qed.

Lemma dict_set_bound_value {V} k (v : V) d :
  dict_get k d = Some v -> dict_set k v d = d.
Proof.
  induction d as [| [k0 v0] d IH]; simpl; [discriminate |].
  destruct (String.eqb_spec k k0) as [-> | Hne].
  - intros H. injection H as ->. reflexivity.
  - intros H. rewrite IH by exact H. reflexivity.
Qed.

(** ** The component loops, exactly *)

(** The loop of [__parse_splice_insert] rebinds [components] to the list
    it had with one decoded component per element of the range appended,
    changes nothing else, and consumes whole bytes, at least one per
    component. *)
Lemma splice_insert_components_exact range imm :
  forall ssi s ssi' s' l,
    splice_insert_components range imm ssi s = OK (ssi', s') ->
    dict_get "components" ssi = Some (VList l) ->
    exists cs k,
      List.length cs = List.length range /\
      Forall (decoded_component imm) cs /\
      ssi' = dict_set "components" (VList (l ++ cs)) ssi /\
      data s' = data s /\
      pos s' = (pos s + 8 * k)%nat /\
      (List.length range <= k)%nat.
Proof.
  induction range as [| i range IH]; intros ssi s ssi' s' l H Hl.
  - simpl in H. apply ret_OK in H. destruct H as [<- <-].
    exists [], 0%nat. rewrite app_nil_r.
    rewrite dict_set_bound_value by exact Hl.
    repeat split; auto; simpl; lia.
  - simpl in H.
    bind_inv H as tag s1 Htag. bind_inv H as comp s2 Hcomp.
    bind_inv H as ssi1 s3 Happ.
    apply lift_OK in Happ. destruct Happ as [Happ <-].
    apply dict_append_get in Happ. destruct Happ as (l' & Hl' & ->).
    rewrite Hl in Hl'. injection Hl' as <-.
    apply IH with (l := l ++ [VDict comp]) in H; [| apply dict_get_set_same].
    destruct H as (cs & k & Hlen & Hall & -> & Hdata & Hpos & Hk).
    pose proof (read_uint_range _ _ _ _ Htag) as Hrange.
    read_fact Htag.
    assert (Hc : decoded_component imm (VDict comp) /\
                 data s2 = data s /\
                 exists kc, pos s2 = (pos s + 8 + 8 * kc)%nat).
    { destruct imm.
      - bind_inv Hcomp as st s4 Hst. apply ret_OK in Hcomp.
        destruct Hcomp as [<- <-].
        apply parse_splice_time_inv in Hst. cbn [data pos] in Hst.
        destruct Hst as [Hd Hst]. split; [| split; [exact Hd |]].
        + eexists. split; [exact Hrange |]. eexists. reflexivity.
        + destruct (nth (pos s + 8) (data s) false).
          * exists 5%nat. lia.
          * exists 1%nat. lia.
      - apply ret_OK in Hcomp. destruct Hcomp as [<- <-].
        split; [| split; [reflexivity |]].
        + eexists. split; [exact Hrange |]. reflexivity.
        + exists 0%nat. simpl. lia. }
    destruct Hc as (Hdc & Hd2 & kc & Hp2).
    exists (VDict comp :: cs), (1 + kc + k)%nat.
    repeat split.
    + simpl. rewrite Hlen. reflexivity.
    + constructor; assumption.
    + rewrite dict_set_set, <- app_assoc. reflexivity.
    + congruence.
    + lia.
    + simpl. lia.
Qed.

(** A component of a segmentation descriptor. *)
Lemma segmentation_components_exact range :
  forall sd s sd' s' l,
    segmentation_components range sd s = OK (sd', s') ->
    dict_get "components" sd = Some (VList l) ->
    exists cs,
      List.length cs = List.length range /\
      Forall segmentation_component cs /\
      sd' = dict_set "components" (VList (l ++ cs)) sd /\
      data s' = data s /\
      pos s' = (pos s + 48 * List.length range)%nat.
Proof.
  induction range as [| i range IH]; intros sd s sd' s' l H Hl.
  - simpl in H. apply ret_OK in H. destruct H as [<- <-].
    exists []. rewrite app_nil_r, dict_set_bound_value by exact Hl.
    repeat split; auto; simpl; lia.
  - simpl in H.
    bind_inv H as tag s1 Htag. bind_inv H as u s2 Hskip.
    bind_inv H as pts s3 Hpts. bind_inv H as sd1 s4 Happ.
    apply lift_OK in Happ. destruct Happ as [Happ <-].
    apply dict_append_get in Happ. destruct Happ as (l' & Hl' & ->).
    rewrite Hl in Hl'. injection Hl' as <-.
    match type of H with
    | segmentation_components _ (dict_set _ (VList (_ ++ [?c])) _) _ = _ =>
        apply IH with (l := l ++ [c]) in H; [| apply dict_get_set_same]
    end.
    destruct H as (cs & Hlen & Hall & -> & Hdata & Hpos).
    pose proof (read_uint_range _ _ _ _ Htag) as Rtag.
    pose proof (read_uint_range _ _ _ _ Hpts) as Rpts.
    read_fact Htag. read_fact Hskip. read_fact Hpts.
    eexists (_ :: cs). repeat split.
    + simpl. rewrite Hlen. reflexivity.
    + constructor; [| exact Hall].
      eexists _, _. split; [exact Rtag |]. split; [exact Rpts |]. reflexivity.
    + rewrite dict_set_set, <- app_assoc. reflexivity.
    + exact Hdata.
    + rewrite Hpos. simpl List.length. lia.
Qed.

(** ** The segmentation descriptor, exactly *)

Lemma hex_of_bits_length k :
  forall l, List.length l = (4 * k)%nat -> String.length (hex_of_bits l) = k.
Proof.
  induction k as [| k IH]; intros l Hl.
  - destruct l; [reflexivity | discriminate Hl].
  - destruct l as [| b3 [| b2 [| b1 [| b0 r]]]]; simpl in Hl; try lia.
    cbn [hex_of_bits String.length]. rewrite IH by lia. reflexivity.
Qed.

(** The whole of what [__parse_segmentation_descriptor] returns and
    consumes.  A cancelled event gives the five-key record and takes nine
    bytes.  Otherwise the record is [segmentation_record] of the values
    read, and the bytes taken are [segmentation_record_bytes]: they follow
    from the flags, the component count, the UPID length and the raw type
    id, and not from the [length] the descriptor declares. *)
Lemma segmentation_descriptor_inv tag length s sd s' :
  parse_segmentation_descriptor tag length s = OK (sd, s') ->
  data s' = data s /\
  exists identifier event_id,
    0 <= identifier < 2 ^ 32 /\ 0 <= event_id < 2 ^ 32 /\
    ((sd = cancelled_segmentation_record tag length identifier event_id /\
     pos s' = (pos s + 8 * 9)%nat) \/
    (exists psf sdf dnr web nrb arch dev count comps dur
            upid_type upid_length upid raw segment_num segments_expected ssn sse,
       sd = segmentation_record tag length identifier event_id psf sdf dnr
              web nrb arch dev count comps dur upid_type upid_length upid raw
              segment_num segments_expected ssn sse /\
       pos s' = (pos s + 8 * segmentation_record_bytes psf sdf count
                               upid_length raw)%nat /\
       0 <= dev < 4 /\
       0 <= count < 256 /\
       (psf = false ->
        List.length comps = Z.to_nat count /\
        Forall segmentation_component comps) /\
       0 <= dur < 2 ^ 40 /\
       0 <= upid_length < 256 /\
       String.length upid = (2 * Z.to_nat upid_length)%nat /\
       String.length raw = 2%nat)).
Proof.
  unfold parse_segmentation_descriptor. intros H.
  bind_inv H as ident s1 Hident. bind_inv H as event s2 Hevent.
  bind_inv H as cancel s3 Hc. bind_inv H as u1 s4 Hskip.
  pose proof (read_uint_range _ _ _ _ Hident) as Rident.
  pose proof (read_uint_range _ _ _ _ Hevent) as Revent.
  apply read_uint_OK in Hident. destruct Hident as (_ & -> & _).
  apply read_uint_OK in Hevent. destruct Hevent as (_ & -> & _).
  apply read_bool_OK in Hc. destruct Hc as (_ & -> & _).
  apply skip_OK in Hskip. destruct Hskip as (_ & ->).
  cbn [data pos] in *.
  destruct cancel; cbn [negb] in H.
  { apply ret_OK in H. destruct H as [<- <-].
    split; [reflexivity |]. exists ident, event.
    split; [exact Rident |]. split; [exact Revent |]. left.
    split; [reflexivity | cbn [pos]; lia]. }
  bind_inv H as psf s5 Hpsf. bind_inv H as sdf s6 Hsdf.
  bind_inv H as dnr s7 Hdnr.
  bind_inv H as sd1 s8 Hdelivery. bind_inv H as sd2 s9 Hcomps.
  bind_inv H as sd3 s10 Hduration.
  bind_inv H as upid_type s11 Hutype. bind_inv H as upid_len s12 Hulen.
  bind_inv H as upid_int s13 Huint. bind_inv H as upid s14 Hupid.
  bind_inv H as raw s15 Hraw.
  bind_inv H as seg_num s16 Hnum. bind_inv H as seg_exp s17 Hexp.
  bind_inv H as sd4 s18 Hsub.
  apply ret_OK in H. destruct H as [<- <-].
  apply lift_OK in Huint. destruct Huint as [_ <-].
  (* the flags *)
  apply read_bool_OK in Hpsf. destruct Hpsf as (_ & -> & _).
  apply read_bool_OK in Hsdf. destruct Hsdf as (_ & -> & _).
  apply read_bool_OK in Hdnr. destruct Hdnr as (_ & -> & _).
  cbn [data pos] in *.
  (* delivery restrictions *)
  assert (HA : exists web nrb arch dev,
             0 <= dev < 4 /\ data s8 = data s /\
             pos s8 = (pos s + 80)%nat /\
             sd1 = if dnr then
                     dict_set "delivery_not_restricted_flag" (VBool dnr)
                    (dict_set "segmentation_duration_flag" (VBool sdf)
                    (dict_set "program_segmentation_flag" (VBool psf)
                    (dict_set "segmentation_event_cancel_indicator" (VBool false)
                    (dict_set "segmentation_event_id" (VInt event)
                    (dict_set "identifier" (VInt ident)
                    (dict_set "descriptor_length" (VInt length)
                    (dict_set "splice_descriptor_tag" (VInt tag) [])))))))
                   else
                     dict_set "device_restrictions" (VInt dev)
                    (dict_set "archive_allowed_flag" (VBool arch)
                    (dict_set "no_regional_blackout_flag" (VBool nrb)
                    (dict_set "web_delivery_allowed_flag" (VBool web)
                    (dict_set "delivery_not_restricted_flag" (VBool dnr)
                    (dict_set "segmentation_duration_flag" (VBool sdf)
                    (dict_set "program_segmentation_flag" (VBool psf)
                    (dict_set "segmentation_event_cancel_indicator" (VBool false)
                    (dict_set "segmentation_event_id" (VInt event)
                    (dict_set "identifier" (VInt ident)
                    (dict_set "descriptor_length" (VInt length)
                    (dict_set "splice_descriptor_tag" (VInt tag) [])))))))))))).
  { destruct dnr; cbn [negb] in Hdelivery.
    - bind_inv Hdelivery as u sa Hs. apply ret_OK in Hdelivery.
      destruct Hdelivery as [<- <-]. read_fact Hs.
      exists false, false, false, 0. repeat split; try reflexivity; lia.
    - bind_inv Hdelivery as web sa Hw. bind_inv Hdelivery as nrb sb Hn.
      bind_inv Hdelivery as arch sc Ha. bind_inv Hdelivery as dev sd Hdev.
      apply ret_OK in Hdelivery. destruct Hdelivery as [<- <-].
      pose proof (read_uint_range _ _ _ _ Hdev) as Rdev.
      apply read_bool_OK in Hw. destruct Hw as (_ & -> & _).
      apply read_bool_OK in Hn. destruct Hn as (_ & -> & _).
      apply read_bool_OK in Ha. destruct Ha as (_ & -> & _).
      apply read_uint_OK in Hdev. destruct Hdev as (_ & -> & _).
      cbn [data pos] in *.
      exists web, nrb, arch, dev.
      split; [exact Rdev |]. repeat split; try reflexivity; lia. }
  destruct HA as (web & nrb & arch & dev & Rdev & Hd8 & Hp8 & Hsd1).
  (* components *)
  assert (HB : exists count comps,
             0 <= count < 256 /\ data s9 = data s8 /\
             pos s9 = (pos s8 + 8 * (if psf then 0
                                     else 1 + 6 * Z.to_nat count))%nat /\
             (psf = false ->
              List.length comps = Z.to_nat count /\
              Forall segmentation_component comps) /\
             sd2 = if psf then sd1
                   else dict_set "components" (VList comps)
                          (dict_set "component_count" (VInt count) sd1)).
  { destruct psf; cbn [negb] in Hcomps.
    - apply ret_OK in Hcomps. destruct Hcomps as [<- <-].
      exists 0, []. repeat split; try reflexivity; try lia; discriminate.
    - bind_inv Hcomps as count sa Hcount.
      pose proof (read_uint_range _ _ _ _ Hcount) as Rcount.
      apply read_uint_OK in Hcount. destruct Hcount as (_ & -> & _).
      apply segmentation_components_exact with (l := []) in Hcomps;
        [| apply dict_get_set_same].
      destruct Hcomps as (cs & Hlen & Hall & -> & Hdata & Hpos).
      rewrite py_range_length, Z.sub_0_r in Hlen, Hpos.
      cbn [data pos] in *.
      exists count, cs. rewrite dict_set_set.
      split; [exact Rcount |].
      repeat split; try assumption; try reflexivity; lia. }
  destruct HB as (count & comps & Rcount & Hd9 & Hp9 & Hcs & Hsd2).
  (* duration *)
  assert (HC : exists dur,
             0 <= dur < 2 ^ 40 /\ data s10 = data s9 /\
             pos s10 = (pos s9 + 8 * (if sdf then 5 else 0))%nat /\
             sd3 = if sdf then dict_set "segmentation_duration" (VInt dur) sd2
                   else sd2).
  { destruct sdf.
    - bind_inv Hduration as dur sa Hdur. apply ret_OK in Hduration.
      destruct Hduration as [<- <-].
      pose proof (read_uint_range _ _ _ _ Hdur) as Rdur.
      apply read_uint_OK in Hdur. destruct Hdur as (_ & -> & _).
      cbn [data pos]. exists dur.
      split; [exact Rdur |]. repeat split; try reflexivity; lia.
    - apply ret_OK in Hduration. destruct Hduration as [<- <-].
      exists 0. split; [split; [lia | reflexivity] |].
      repeat split; try reflexivity; lia. }
  destruct HC as (dur & Rdur & Hd10 & Hp10 & Hsd3).
  (* the UPID, the type id and the segment numbers *)
  pose proof (read_uint_range _ _ _ _ Hulen) as Rul.
  pose proof (read_uint_range _ _ _ _ Hnum) as Rnum.
  apply read_hex_OK in Hutype. destruct Hutype as (_ & -> & _).
  apply read_uint_OK in Hulen. destruct Hulen as (_ & -> & _).
  unfold parse_segmentation_upid in Hupid.
  apply read_hex_OK in Hupid. cbn [data pos len] in Hupid.
  destruct Hupid as (Hupid_le & -> & Hupid).
  assert (Lupid : String.length upid = (2 * Z.to_nat upid_len)%nat).
  { rewrite Hupid. apply hex_of_bits_length.
    rewrite length_firstn, length_skipn.
    unfold len in Hupid_le. cbn [data] in Hupid_le.
    change (2 ^ Z.of_nat 8) with 256 in Rul. lia. }
  assert (Lraw : String.length raw = 2%nat).
  { destruct (read_hex_8 _ _ _ Hraw)
      as (b7 & b6 & b5 & b4 & b3 & b2 & b1 & b0 & ->). reflexivity. }
  apply read_hex_OK in Hraw. cbn [data pos len] in Hraw.
  destruct Hraw as (_ & -> & Hraw).
  apply read_uint_OK in Hnum. destruct Hnum as (_ & -> & _).
  apply read_uint_OK in Hexp. destruct Hexp as (_ & -> & _).
  cbn [data pos len] in *.
  (* the sub-segment numbers *)
  assert (HD : exists ssn sse,
             data s18 = data s10 /\
             pos s18 = (pos s10 + 8 + 8 + Z.to_nat (upid_len * 8) + 8 + 8 + 8
                        + 8 * (if existsb (String.eqb raw) ["34"; "36"]
                               then 2 else 0))%nat /\
             sd4 = if existsb (String.eqb raw) ["34"; "36"]
                   then dict_set "sub_segments_expected" (VInt sse)
                          (dict_set "sub_segment_num" (VInt ssn)
                          (dict_set "segments_expected" (VInt seg_exp)
                          (dict_set "segment_num" (VInt seg_num)
                          (dict_set "segmentation_type_id" (VStr raw)
                          (dict_set "segmentation_upid" (VStr upid)
                          (dict_set "segmentation_upid_length" (VInt upid_len)
                          (dict_set "segmentation_upid_type" (VStr upid_type)
                             sd3)))))))
                   else dict_set "segments_expected" (VInt seg_exp)
                          (dict_set "segment_num" (VInt seg_num)
                          (dict_set "segmentation_type_id" (VStr raw)
                          (dict_set "segmentation_upid" (VStr upid)
                          (dict_set "segmentation_upid_length" (VInt upid_len)
                          (dict_set "segmentation_upid_type" (VStr upid_type)
                             sd3)))))).
  { destruct (existsb (String.eqb raw) ["34"; "36"]).
    - bind_inv Hsub as ssn sa Hssn. bind_inv Hsub as sse sb Hsse.
      apply ret_OK in Hsub. destruct Hsub as [<- <-].
      apply read_uint_OK in Hssn. destruct Hssn as (_ & -> & _).
      apply read_uint_OK in Hsse. destruct Hsse as (_ & -> & _).
      cbn [data pos]. exists ssn, sse. repeat split; try reflexivity; lia.
    - apply ret_OK in Hsub. destruct Hsub as [<- <-].
      cbn [data pos]. exists 0, 0. repeat split; try reflexivity; lia. }
  destruct HD as (ssn & sse & Hd18 & Hp18 & Hsd4).
  split; [congruence |].
  exists ident, event. split; [exact Rident |]. split; [exact Revent |]. right.
  exists psf, sdf, dnr, web, nrb, arch, dev, count, comps, dur,
         upid_type, upid_len, upid, raw, seg_num, seg_exp, ssn, sse.
  split.
  { subst sd4 sd3 sd2 sd1. unfold segmentation_record, type_id_label.
    destruct dnr, psf, sdf, (existsb (String.eqb raw) ["34"; "36"]),
      (dict_get raw SEGMENTATION_TYPE_IDS); reflexivity. }
  split.
  { unfold segmentation_record_bytes.
    destruct psf, sdf, (existsb (String.eqb raw) ["34"; "36"]); lia. }
  split; [exact Rdev |]. split; [exact Rcount |]. split; [exact Hcs |].
  split; [exact Rdur |]. split; [exact Rul |]. split; [exact Lupid | exact Lraw].
Qed.

(** ** splice_insert, exactly *)

(** The whole of what [__parse_splice_insert] returns and consumes.  With
    the cancel bit set it returns [None] after five bytes.  Otherwise it
    returns [splice_insert_record] of the values read: [splice_time] is
    there exactly when [program_splice_flag] is set and
    [splice_immediate_flag] is not, [component_count] exactly when
    [program_splice_flag] is not set, [break_duration] exactly when
    [duration_flag] is set; and it consumes whole bytes, ten at least. *)
Lemma splice_insert_inv py s v s' :
  parse_splice_insert py s = OK (v, s') ->
  data s' = data s /\
  ((v = VNone /\ nth (pos s + 32) (data s) false = true /\
    pos s' = (pos s + 8 * 5)%nat) \/
   (exists id oon psf dur imm st count comps bd upid avail avails k,
      v = VDict (splice_insert_record id oon psf dur imm st count comps bd
                   upid avail avails) /\
      nth (pos s + 32) (data s) false = false /\
      0 <= id < 2 ^ 32 /\
      (psf = true -> comps = []) /\
      (psf = false ->
       py = Python2 /\ 0 <= count < 256 /\
       List.length comps = Z.to_nat count /\
       Forall (decoded_component imm) comps) /\
      (psf && negb imm = true -> has_key "time_specified_flag" st = true) /\
      (dur = true ->
       exists auto_return duration,
         0 <= duration < 2 ^ 33 /\
         bd = [("auto_return", VBool auto_return); ("duration", VInt duration)]) /\
      0 <= upid < 2 ^ 16 /\ 0 <= avail < 256 /\ 0 <= avails < 256 /\
      pos s' = (pos s + 8 * k)%nat /\ (10 <= k)%nat)).
Proof.
  unfold parse_splice_insert. intros H.
  bind_inv H as id s1 Hid. bind_inv H as cancel s2 Hcancel.
  bind_inv H as u1 s3 Hskip.
  pose proof (read_uint_range _ _ _ _ Hid) as Rid.
  apply read_uint_OK in Hid. destruct Hid as (_ & -> & _).
  apply read_bool_OK in Hcancel. destruct Hcancel as (_ & -> & Hbit).
  apply skip_OK in Hskip. destruct Hskip as (_ & ->).
  cbn [data pos] in *.
  destruct cancel; cbn [negb] in H.
  { apply ret_OK in H. destruct H as [<- <-].
    split; [reflexivity |]. left. cbn [pos].
    repeat split; [symmetry; exact Hbit | lia]. }
  bind_inv H as oon s4 Hoon. bind_inv H as psf s5 Hpsf.
  bind_inv H as dur s6 Hdur. bind_inv H as imm s7 Himm.
  bind_inv H as u2 s8 Hskip4.
  bind_inv H as ssi1 s9 Htime. bind_inv H as ssi2 s10 Hcomps.
  bind_inv H as ssi3 s11 Hbreak.
  bind_inv H as upid s12 Hupid. bind_inv H as avail s13 Havail.
  bind_inv H as avails s14 Havails.
  apply ret_OK in H. destruct H as [<- <-].
  apply read_bool_OK in Hoon. destruct Hoon as (_ & -> & _).
  apply read_bool_OK in Hpsf. destruct Hpsf as (_ & -> & _).
  apply read_bool_OK in Hdur. destruct Hdur as (_ & -> & _).
  apply read_bool_OK in Himm. destruct Himm as (_ & -> & _).
  apply skip_OK in Hskip4. destruct Hskip4 as (_ & ->).
  cbn [data pos] in *.
  (* splice_time *)
  assert (HA : exists st ka,
             data s9 = data s /\ pos s9 = (pos s + 48 + 8 * ka)%nat /\
             (psf && negb imm = true -> has_key "time_specified_flag" st = true) /\
             ssi1 = if psf && negb imm
                    then dict_set "splice_time" (VDict st)
                        (dict_set "splice_immediate_flag" (VBool imm)
                        (dict_set "duration_flag" (VBool dur)
                        (dict_set "program_splice_flag" (VBool psf)
                        (dict_set "out_of_network_indicator" (VBool oon)
                        (dict_set "splice_event_cancel_indicator" (VBool false)
                        (dict_set "components" (VList [])
                        (dict_set "splice_id" (VInt id) [])))))))
                    else dict_set "splice_immediate_flag" (VBool imm)
                        (dict_set "duration_flag" (VBool dur)
                        (dict_set "program_splice_flag" (VBool psf)
                        (dict_set "out_of_network_indicator" (VBool oon)
                        (dict_set "splice_event_cancel_indicator" (VBool false)
                        (dict_set "components" (VList [])
                        (dict_set "splice_id" (VInt id) []))))))).
  { destruct (psf && negb imm).
    - bind_inv Htime as st sa Hst. apply ret_OK in Htime.
      destruct Htime as [<- <-].
      apply parse_splice_time_inv in Hst. cbn [data pos] in Hst.
      destruct Hst as [Hd Hst].
      destruct (nth (pos s + 32 + 1 + 7 + 1 + 1 + 1 + 1 + 4) (data s) false);
        destruct Hst as (-> & Hp & _).
      + exists [("time_specified_flag", VBool true);
                ("pts_time",
                 VInt (bits_to_Z
                         (firstn 33
                            (skipn (pos s + 32 + 1 + 7 + 1 + 1 + 1 + 1 + 4 + 7)
                               (data s)))))], 5%nat.
        repeat split; try reflexivity; try assumption; lia.
      + exists [("time_specified_flag", VBool false)], 1%nat.
        repeat split; try reflexivity; try assumption; lia.
    - apply ret_OK in Htime. destruct Htime as [<- <-].
      exists [], 0%nat. cbn [data pos].
      repeat split; try reflexivity; try discriminate; lia. }
  destruct HA as (st & ka & Hd9 & Hp9 & Hst & Hssi1).
  (* components *)
  assert (Hc1 : dict_get "components" ssi1 = Some (VList [])).
  { rewrite Hssi1. destruct (psf && negb imm); reflexivity. }
  assert (HB : exists count comps kb,
             data s10 = data s9 /\ pos s10 = (pos s9 + 8 * kb)%nat /\
             (psf = true -> comps = []) /\
             (psf = false ->
              py = Python2 /\ 0 <= count < 256 /\
              List.length comps = Z.to_nat count /\
              Forall (decoded_component imm) comps) /\
             ssi2 = if psf then ssi1
                    else dict_set "components" (VList comps)
                           (dict_set "component_count" (VInt count) ssi1)).
  { destruct psf; cbn [negb] in Hcomps.
    - apply ret_OK in Hcomps. destruct Hcomps as [<- <-].
      exists 0, [], 0%nat.
      repeat split; try reflexivity; try discriminate; lia.
    - bind_inv Hcomps as count sc Hcount. bind_inv Hcomps as range sr Hrange.
      apply lift_OK in Hrange. destruct Hrange as [Hx <-].
      destruct py; [| discriminate Hx]. injection Hx as <-.
      pose proof (read_uint_range _ _ _ _ Hcount) as Rcount.
      apply read_uint_OK in Hcount. destruct Hcount as (_ & -> & _).
      apply splice_insert_components_exact with (l := []) in Hcomps;
        [| rewrite dict_get_set_other by reflexivity; exact Hc1].
      destruct Hcomps as (cs & k & Hlen & Hall & -> & Hdata & Hpos & Hk).
      rewrite py_range_length, Z.sub_0_r in Hlen.
      cbn [data pos] in *.
      exists count, cs, (1 + k)%nat.
      split; [exact Hdata |]. split; [lia |].
      split; [discriminate |].
      split; [intros _; split; [reflexivity |];
              split; [exact Rcount |]; split; assumption |].
      reflexivity. }
  destruct HB as (count & comps & kb & Hd10 & Hp10 & Hct & Hcf & Hssi2).
  (* break_duration *)
  assert (HC : exists bd kc,
             data s11 = data s10 /\ pos s11 = (pos s10 + 8 * kc)%nat /\
             (dur = true ->
              exists auto_return duration,
                0 <= duration < 2 ^ 33 /\
                bd = [("auto_return", VBool auto_return);
                      ("duration", VInt duration)]) /\
             ssi3 = if dur then dict_set "break_duration" (VDict bd) ssi2
                    else ssi2).
  { destruct dur.
    - bind_inv Hbreak as bd sb Hbd. apply ret_OK in Hbreak.
      destruct Hbreak as [<- <-].
      apply parse_break_duration_inv in Hbd.
      destruct Hbd as (-> & Rd & Hd & Hp).
      eexists _, 5%nat.
      split; [exact Hd |]. split; [lia |].
      split; [intros _; eexists _, _; split; [exact Rd | reflexivity] |].
      reflexivity.
    - apply ret_OK in Hbreak. destruct Hbreak as [<- <-].
      exists [], 0%nat.
      repeat split; try reflexivity; try discriminate; lia. }
  destruct HC as (bd & kc & Hd11 & Hp11 & Hbd & Hssi3).
  pose proof (read_uint_range _ _ _ _ Hupid) as Rupid.
  pose proof (read_uint_range _ _ _ _ Havail) as Ravail.
  pose proof (read_uint_range _ _ _ _ Havails) as Ravails.
  apply read_uint_OK in Hupid. destruct Hupid as (_ & -> & _).
  apply read_uint_OK in Havail. destruct Havail as (_ & -> & _).
  apply read_uint_OK in Havails. destruct Havails as (_ & -> & _).
  cbn [data pos] in *.
  split; [congruence |]. right.
  exists id, oon, psf, dur, imm, st, count, comps, bd, upid, avail, avails,
         (10 + ka + kb + kc)%nat.
  split.
  { subst ssi3 ssi2 ssi1. unfold splice_insert_record.
    destruct psf; [rewrite (Hct eq_refl) |];
      destruct imm, dur; reflexivity. }
  split; [symmetry; exact Hbit |]. split; [exact Rid |].
  split; [exact Hct |]. split; [exact Hcf |]. split; [exact Hst |].
  split; [exact Hbd |]. split; [exact Rupid |]. split; [exact Ravail |].
  split; [exact Ravails |]. split; lia.
Qed.

(** ** The descriptor loop, turn by turn *)

(** A turn that succeeds takes whole bytes, one at least, and gives a
    descriptor of the expected shape.  Either the tag was the last byte of
    the buffer and the budget becomes 0, or the budget goes down by the
    length byte plus two. *)
Lemma descriptor_step_exact length s d length' s' :
  descriptor_step length s = OK ((d, length'), s') ->
  data s' = data s /\
  descriptor_shape d /\
  (exists k, pos s' = (pos s + 8 * k)%nat /\ (1 <= k)%nat) /\
  ((pos s' = len s /\ pos s' = (pos s + 8)%nat /\ length' = 0) \/
   (exists descriptor_length,
      0 <= descriptor_length < 256 /\
      length' = length - (descriptor_length + 2))).
Proof.
  unfold descriptor_step. intros H.
  bind_inv H as tag s1 Htag. bind_inv H as ended s2 Hend.
  pose proof (read_uint_range _ _ _ _ Htag) as Rtag.
  apply read_uint_OK in Htag. destruct Htag as (_ & -> & _).
  unfold at_end in Hend. injection Hend as <- <-.
  unfold len in *. cbn [data pos] in *.
  destruct (Nat.eqb_spec (pos s + 8) (List.length (data s))) as [Hat | Hnot].
  - apply ret_OK in H. destruct H as [E <-]. injection E as <- <-.
    cbn [data pos]. split; [reflexivity |]. split.
    + exists [("splice_descriptor_tag", VInt tag); ("descriptor_length", VInt 0)],
             tag, 0.
      repeat split; try reflexivity; try exact Rtag; lia.
    + split; [exists 1%nat; lia |]. left. repeat split; lia.
  - bind_inv H as dl s3 Hdl.
    pose proof (read_uint_range _ _ _ _ Hdl) as Rdl.
    apply read_uint_OK in Hdl. destruct Hdl as (_ & -> & _).
    cbn [data pos] in *.
    destruct (Z.eqb_spec tag (SpliceDescriptor_value SEGMENTATION_DESCRIPTOR))
      as [Etag | Ntag].
    + bind_inv H as sd s4 Hsd.
      apply ret_OK in H. destruct H as [E <-]. injection E as <- <-.
      apply segmentation_descriptor_inv in Hsd. cbn [data pos] in Hsd.
      destruct Hsd as (Hd & ident & event & _ & _ & Hrec).
      split; [exact Hd |]. split.
      * exists sd, tag, dl.
        split; [reflexivity |]. split; [exact Rtag |]. split; [exact Rdl |].
        destruct Hrec as [(-> & _) | Hrec].
        -- repeat split; try reflexivity. intros N. contradiction.
        -- destruct Hrec as (psf & sdf & dnr & web & nrb & arch & dev & count
                             & comps & dur & ut & ul & upid & raw & num & exp
                             & ssn & sse & -> & _).
           repeat split; try reflexivity. intros N. contradiction.
      * split.
        -- destruct Hrec as [(_ & Hp) | Hrec].
           ++ exists 11%nat. lia.
           ++ destruct Hrec as (psf & sdf & dnr & web & nrb & arch & dev & count
                                & comps & dur & ut & ul & upid & raw & num & exp
                                & ssn & sse & _ & Hp & _).
              exists (2 + segmentation_record_bytes psf sdf count ul raw)%nat.
              lia.
        -- right. exists dl. split; [exact Rdl | reflexivity].
    + apply ret_OK in H. destruct H as [E <-]. injection E as <- <-.
      cbn [data pos]. split; [reflexivity |]. split.
      * exists [("splice_descriptor_tag", VInt tag); ("descriptor_length", VInt dl)],
               tag, dl.
        repeat split; try reflexivity; lia.
      * split; [exists 2%nat; lia |].
        right. exists dl. split; [exact Rdl | reflexivity].
Qed.

Lemma descriptors_loop_exact fuel :
  forall length results s results' s',
    descriptors_loop fuel length results s = Finished results' s' ->
    data s' = data s /\
    exists new k,
      results' = results ++ new /\
      Forall descriptor_shape new /\
      pos s' = (pos s + 8 * k)%nat /\
      (List.length new <= k)%nat /\
      (new = [] <-> length = 0).
Proof.
  induction fuel as [| fuel IH]; intros length results s results' s'; simpl.
  - destruct (Z.eqb_spec length 0) as [-> | Hne]; [| discriminate].
    intros H. inversion H; subst. split; [reflexivity |].
    exists [], 0%nat. rewrite app_nil_r. repeat split; auto; lia.
  - destruct (Z.eqb_spec length 0) as [-> | Hne].
    + intros H. inversion H; subst. split; [reflexivity |].
      exists [], 0%nat. rewrite app_nil_r. repeat split; auto; lia.
    + destruct (descriptor_step length s) as [[[d length'] s1] | e |] eqn:Hstep;
        try discriminate.
      intros H. apply IH in H. apply descriptor_step_exact in Hstep.
      destruct H as (Hd & new & k & -> & Hall & Hp & Hlen & _).
      destruct Hstep as (Hd1 & Hshape & (k1 & Hp1 & Hk1) & _).
      split; [congruence |].
      exists (d :: new), (k1 + k)%nat. repeat split.
      * rewrite <- app_assoc. reflexivity.
      * constructor; assumption.
      * lia.
      * simpl. lia.
      * discriminate.
      * intros ->. contradiction.
Qed.

(** What [__parse_splice_descriptors] returns: descriptors of the expected
    shape, no more of them than the bytes it consumed, and none at all
    only for a budget of 0. *)
Lemma parse_splice_descriptors_inv length s results s' :
  parse_splice_descriptors length s = OK (results, s') ->
  data s' = data s /\
  Forall descriptor_shape results /\
  (exists k, pos s' = (pos s + 8 * k)%nat /\ (List.length results <= k)%nat) /\
  (results = [] <-> length = 0).
Proof.
  unfold parse_splice_descriptors. intros H.
  destruct (descriptors_loop (S (remaining s)) length [] s) eqn:Hloop;
    try discriminate.
  inversion H; subst. apply descriptors_loop_exact in Hloop.
  destruct Hloop as (Hd & new & k & E & Hall & Hp & Hlen & Hnil).
  simpl in E. subst new.
  split; [exact Hd |]. split; [exact Hall |].
  split; [exists k; split; assumption | exact Hnil].
Qed.

(** X10.  The last byte of the buffer read as a tag: with a budget that is not 0
    and exactly one byte left, the loop returns the stub of that byte with
    length 0 and stops at the end of the buffer, whatever the budget was. *)
Theorem lone_trailing_tag length s :
  length <> 0 ->
  (pos s + 8)%nat = len s ->
  parse_splice_descriptors length s =
    OK ([stub (bits_to_Z (firstn 8 (skipn (pos s) (data s)))) 0],
        {| data := data s; pos := len s |}).
Proof.
  intros Hne Hlast.
  assert (Hstep : descriptor_step length s =
                  OK ((stub (bits_to_Z (firstn 8 (skipn (pos s) (data s)))) 0, 0),
                      {| data := data s; pos := len s |})).
  { unfold descriptor_step.
    rewrite (bind_run _ _ _ _ _ (read_uint_eq 8 s (Nat.eq_le_incl _ _ Hlast))).
    rewrite Hlast.
    erewrite bind_run; [| unfold at_end; cbn [pos data len]; reflexivity].
    unfold len. cbn [data]. rewrite Nat.eqb_refl. reflexivity. }
  unfold parse_splice_descriptors. cbn [descriptors_loop].
  destruct (Z.eqb_spec length 0) as [E | _]; [contradiction |].
  rewrite Hstep. destruct (remaining s); reflexivity.
Qed.

(** ** Bytes under the cursor *)

Lemma bits_of_byte_length b : List.length (bits_of_byte b) = 8%nat.
Proof. reflexivity. Qed.

Lemma BitString_len input_bytes :
  len (BitString input_bytes) = (8 * List.length input_bytes)%nat.
Proof.
  unfold len, BitString. cbn [data].
  induction input_bytes as [| b l IH]; [reflexivity |].
  cbn [flat_map]. rewrite length_app, IH, bits_of_byte_length.
  cbn [List.length]. lia.
Qed.

Lemma skipn_bytes i :
  forall l, skipn (8 * i) (flat_map bits_of_byte l)
            = flat_map bits_of_byte (skipn i l).
Proof.
  induction i as [| i IH]; intros l; [reflexivity |].
  destruct l as [| b l]; [reflexivity |].
  replace (8 * S i)%nat with (8 * i + 8)%nat by lia.
  cbn [flat_map]. rewrite <- skipn_skipn.
  change (skipn 8 (bits_of_byte b ++ flat_map bits_of_byte l))
    with (flat_map bits_of_byte l).
  rewrite IH. reflexivity.
Qed.

(** The eight bits at a byte offset are the bits of the byte there. *)
Lemma byte_at input_bytes i b :
  nth_error input_bytes i = Some b ->
  firstn 8 (skipn (8 * i) (flat_map bits_of_byte input_bytes)) = bits_of_byte b.
Proof.
  intros H. rewrite skipn_bytes.
  assert (E : exists rest, skipn i input_bytes = b :: rest).
  { revert input_bytes H. induction i as [| i IH]; intros [| x l] H;
      simpl in H; try discriminate.
    - injection H as ->. eexists. reflexivity.
    - apply IH in H. exact H. }
  destruct E as [rest ->]. reflexivity.
Qed.

Lemma byte_value_inj b c : Z.of_N (Byte.to_N b) = Z.of_N (Byte.to_N c) -> b = c.
Proof.
  intros H. assert (E : Byte.of_N (Byte.to_N b) = Byte.of_N (Byte.to_N c)).
  { f_equal. lia. }
  rewrite !Byte.of_to_N in E. congruence.
Qed.

(** ** The header and the command, exactly *)

(** The first part of [parse]: the table id is 0xfc, the header takes
    fourteen bytes, the command type is the byte at offset 13 and is 5 or
    6, the command is what its decoder returns from offset 14, and the loop
    length follows it.  The section holds the fourteen keys of
    [section_record], [splice_descriptors] being [None]. *)
Lemma parse_header_and_command_exact py s sis n s' :
  parse_header_and_command py s = OK ((sis, n), s') ->
  data s' = data s /\
  bits_to_Z (firstn 8 (skipn (pos s) (data s))) = 252 /\
  exists ssi pi sl pv ep ea pts cw tier scl sct cmd k,
    sis = section_record ssi pi sl pv ep ea pts cw tier scl sct cmd n VNone /\
    sct = bits_to_Z (firstn 8 (skipn (pos s + 104) (data s))) /\
    ((sct = 5 /\
      exists s2, parse_splice_insert py
                   {| data := data s; pos := (pos s + 112)%nat |} = OK (cmd, s2)) \/
     (sct = 6 /\
      exists s2, parse_time_signal
                   {| data := data s; pos := (pos s + 112)%nat |} = OK (cmd, s2))) /\
    0 <= sl < 4096 /\ 0 <= pv < 256 /\ 0 <= ea < 64 /\ 0 <= pts < 2 ^ 33 /\
    0 <= cw < 256 /\ String.length tier = 3%nat /\ 0 <= scl < 4096 /\
    0 <= n < 65536 /\
    pos s' = (pos s + 8 * k)%nat /\ (17 <= k)%nat /\ (pos s' <= len s)%nat.
Proof.
  unfold parse_header_and_command. intros H.
  bind_inv H as table_id s1 Htid.
  destruct (Z.eqb_spec table_id 252) as [-> | Hne]; cbn [negb] in H;
    [| discriminate H].
  bind_inv H as ssi s2 Hssi. bind_inv H as pi s3 Hpi. bind_inv H as u s4 Hskip.
  bind_inv H as sl s5 Hsl. bind_inv H as pv s6 Hpv. bind_inv H as ep s7 Hep.
  bind_inv H as ea s8 Hea. bind_inv H as pts s9 Hpts. bind_inv H as cw s10 Hcw.
  bind_inv H as tier s11 Htier. bind_inv H as scl s12 Hscl.
  bind_inv H as sct s13 Hsct. bind_inv H as cmd s14 Hcmd.
  bind_inv H as loop s15 Hloop.
  apply ret_OK in H. destruct H as [E <-].
  pose proof (f_equal fst E) as E1. pose proof (f_equal snd E) as E2.
  cbn [fst snd] in E1, E2. subst sis n. clear E.
  pose proof (read_uint_range _ _ _ _ Hsl) as Rsl.
  pose proof (read_uint_range _ _ _ _ Hpv) as Rpv.
  pose proof (read_uint_range _ _ _ _ Hea) as Rea.
  pose proof (read_uint_range _ _ _ _ Hpts) as Rpts.
  pose proof (read_uint_range _ _ _ _ Hcw) as Rcw.
  pose proof (read_uint_range _ _ _ _ Hscl) as Rscl.
  pose proof (read_uint_range _ _ _ _ Hloop) as Rloop.
  apply read_uint_OK in Htid. destruct Htid as (_ & -> & Etid).
  apply read_bool_OK in Hssi. destruct Hssi as (_ & -> & _).
  apply read_bool_OK in Hpi. destruct Hpi as (_ & -> & _).
  apply skip_OK in Hskip. destruct Hskip as (_ & ->).
  apply read_uint_OK in Hsl. destruct Hsl as (_ & -> & _).
  apply read_uint_OK in Hpv. destruct Hpv as (_ & -> & _).
  apply read_bool_OK in Hep. destruct Hep as (_ & -> & _).
  apply read_uint_OK in Hea. destruct Hea as (_ & -> & _).
  apply read_uint_OK in Hpts. destruct Hpts as (_ & -> & _).
  apply read_uint_OK in Hcw. destruct Hcw as (_ & -> & _).
  apply read_hex_OK in Htier. cbn [data pos len] in Htier.
  destruct Htier as (Htier_le & -> & Etier).
  apply read_uint_OK in Hscl. destruct Hscl as (_ & -> & _).
  apply read_uint_OK in Hsct. destruct Hsct as (_ & -> & Esct).
  cbn [data pos] in *.
  replace (pos s + 8 + 1 + 1 + 2 + 12 + 8 + 1 + 6 + 33 + 8 + 12 + 12)%nat
    with (pos s + 104)%nat in Esct by lia.
  replace (pos s + 8 + 1 + 1 + 2 + 12 + 8 + 1 + 6 + 33 + 8 + 12 + 12 + 8)%nat
    with (pos s + 112)%nat in Hcmd by lia.
  assert (Ltier : String.length tier = 3%nat).
  { rewrite Etier. apply hex_of_bits_length.
    rewrite length_firstn, length_skipn. unfold len in Htier_le.
    cbn [data] in Htier_le. lia. }
  (* the command *)
  assert (Hc : data s14 = data s /\
               exists kc, pos s14 = (pos s + 112 + 8 * kc)%nat /\ (1 <= kc)%nat /\
               ((sct = 5 /\
                 exists s2, parse_splice_insert py
                              {| data := data s; pos := (pos s + 112)%nat |}
                            = OK (cmd, s2)) \/
                (sct = 6 /\
                 exists s2, parse_time_signal
                              {| data := data s; pos := (pos s + 112)%nat |}
                            = OK (cmd, s2)))).
  { destruct (Z.eqb_spec sct 5) as [E5 | N5].
    - pose proof Hcmd as Hcmd'.
      apply splice_insert_inv in Hcmd. cbn [data pos] in Hcmd.
      destruct Hcmd as (Hd & [(_ & _ & Hp) | Hrec]).
      + split; [exact Hd |]. exists 5%nat.
        split; [lia |]. split; [lia |]. left. split; [exact E5 |].
        eexists. exact Hcmd'.
      + destruct Hrec as (id & oon & psf & dur & imm & st & count & comps & bd
                          & upid & avail & avails & k & _ & _ & _ & _ & _ & _
                          & _ & _ & _ & _ & Hp & Hk).
        split; [exact Hd |]. exists k.
        split; [lia |]. split; [lia |]. left. split; [exact E5 |].
        eexists. exact Hcmd'.
    - destruct (Z.eqb_spec sct 6) as [E6 | N6]; [| discriminate Hcmd].
      pose proof Hcmd as Hcmd'.
      unfold parse_time_signal in Hcmd.
      bind_inv Hcmd as st sa Hst. apply ret_OK in Hcmd.
      destruct Hcmd as [_ <-].
      apply parse_splice_time_inv in Hst. cbn [data pos] in Hst.
      destruct Hst as [Hd Hst]. split; [exact Hd |].
      destruct (nth (pos s + 112) (data s) false);
        destruct Hst as (_ & Hp & _).
      + exists 5%nat. split; [lia |]. split; [lia |]. right.
        split; [exact E6 |]. eexists. exact Hcmd'.
      + exists 1%nat. split; [lia |]. split; [lia |]. right.
        split; [exact E6 |]. eexists. exact Hcmd'. }
  destruct Hc as (Hd14 & kc & Hp14 & Hkc & Hcmd_run).
  apply read_uint_OK in Hloop. destruct Hloop as (Hloop_le & -> & _).
  cbn [data pos].
  split; [exact Hd14 |]. split; [symmetry; exact Etid |].
  exists ssi, pi, sl, pv, ep, ea, pts, cw, tier, scl, sct, cmd, (16 + kc)%nat.
  split; [reflexivity |]. split; [exact Esct |]. split; [exact Hcmd_run |].
  split; [exact Rsl |]. split; [exact Rpv |]. split; [exact Rea |].
  split; [exact Rpts |]. split; [exact Rcw |]. split; [exact Ltier |].
  split; [exact Rscl |]. split; [exact Rloop |].
  unfold len in *. rewrite Hd14 in Hloop_le.
  split; [lia |]. split; lia.
Qed.

(** ** Successful runs stay inside the buffer *)

Lemma inside_ret {A} (a : A) : inside (ret a).
Proof. intros s b s' H. apply ret_OK in H. destruct H as [_ <-]. auto. Qed.

Lemma inside_bind {A B} (m : M A) (k : A -> M B) :
  inside m -> (forall a, inside (k a)) -> inside (bind m k).
Proof.
  intros Hm Hk s b s' H Hs. apply bind_OK in H.
  destruct H as (a & s1 & H1 & H2). eapply Hk; eauto.
Qed.

Lemma inside_lift {A} (r : result A) : inside (lift r).
Proof. intros s a s' H. apply lift_OK in H. destruct H as [_ <-]. auto. Qed.

Lemma inside_read_bits n : inside (read_bits n).
Proof.
  intros s a s' H _. apply read_bits_OK in H. destruct H as (Hle & -> & _).
  unfold len in *. cbn [data pos]. exact Hle.
Qed.

Lemma inside_skip n : inside (skip n).
Proof.
  intros s a s' H _. apply skip_OK in H. destruct H as (Hle & ->).
  unfold len in *. cbn [data pos]. exact Hle.
Qed.

Lemma inside_at_end : inside at_end.
Proof. intros s a s' H. unfold at_end in H. inversion H; subst. auto. Qed.

Lemma inside_raise {A} e : inside (@raise A e).
Proof. intros s a s' H. discriminate H. Qed.

Lemma inside_if {A} (c : bool) (m1 m2 : M A) :
  inside m1 -> inside m2 -> inside (if c then m1 else m2).
Proof. destruct c; trivial. Qed.

Create HintDb inside.

#[local] Hint Resolve inside_ret inside_raise inside_read_bits inside_skip
  inside_at_end inside_lift : inside.

Ltac inside_auto :=
  repeat first
    [ progress cbv zeta
    | solve [auto with inside nocore]
    | apply inside_bind; [| intro]
    | apply inside_if
    | match goal with
      | |- inside (match ?x with Some _ => _ | None => _ end) => destruct x
      end ].

Lemma inside_read_uint n : inside (read_uint n).
Proof. unfold read_uint. inside_auto. Qed.

Lemma inside_read_bool : inside read_bool.
Proof. unfold read_bool. inside_auto. Qed.

Lemma inside_read_hex n : inside (read_hex n).
Proof. unfold read_hex. inside_auto. Qed.

#[local] Hint Resolve inside_read_uint inside_read_bool inside_read_hex : inside.

Lemma inside_segmentation_components range sd :
  inside (segmentation_components range sd).
Proof.
  revert sd. induction range as [| i range IH]; intros sd; simpl; inside_auto.
Qed.

#[local] Hint Resolve inside_segmentation_components : inside.

Lemma inside_parse_segmentation_descriptor tag length :
  inside (parse_segmentation_descriptor tag length).
Proof.
  unfold parse_segmentation_descriptor, parse_segmentation_upid. inside_auto.
Qed.

#[local] Hint Resolve inside_parse_segmentation_descriptor : inside.

Lemma inside_descriptor_step length : inside (descriptor_step length).
Proof. unfold descriptor_step. inside_auto. Qed.

Lemma inside_descriptors_loop fuel :
  forall length results s results' s',
    descriptors_loop fuel length results s = Finished results' s' ->
    (pos s <= len s)%nat -> (pos s' <= len s')%nat.
Proof.
  induction fuel as [| fuel IH]; intros length results s results' s'; simpl.
  - destruct (length =? 0); [| discriminate].
    intros E. inversion E; subst. auto.
  - destruct (length =? 0).
    + intros E. inversion E; subst. auto.
    + destruct (descriptor_step length s) as [[[d l'] s1] | e |] eqn:Hs;
        try discriminate.
      intros E Hst. apply IH in E; [exact E |].
      exact (inside_descriptor_step _ _ _ _ Hs Hst).
Qed.

Lemma inside_parse_splice_descriptors length :
  inside (parse_splice_descriptors length).
Proof.
  intros s a s' H. unfold parse_splice_descriptors in H.
  destruct (descriptors_loop (S (remaining s)) length [] s) eqn:Hloop;
    try discriminate.
  inversion H; subst. exact (inside_descriptors_loop _ _ _ _ _ _ Hloop).
Qed.

(** ** The section [parse] returns *)

(** Every section [parse] returns comes from a buffer of at least
    seventeen bytes that starts with 0xfc and has 5 or 6 at offset 13.  It
    holds the fourteen keys of [section_record], in that order, with
    [splice_command_type] the byte at offset 13, the numbers within the
    width they were read with and [tier] as three hex digits.  For type 6
    the command is a dictionary with [splice_time] alone; for type 5 it is
    [None] or a dictionary. *)
Lemma parse_section_inv py input_bytes sis printed :
  parse py input_bytes = OK (sis, printed) ->
  nth_error input_bytes 0 = Some xfc /\
  (17 <= List.length input_bytes)%nat /\
  exists t ssi pi sl pv ep ea pts cw tier scl cmd n descs,
    nth_error input_bytes 13 = Some t /\
    (t = x05 \/ t = x06) /\
    sis = section_record ssi pi sl pv ep ea pts cw tier scl
            (Z.of_N (Byte.to_N t)) cmd n descs /\
    0 <= sl < 4096 /\ 0 <= pv < 256 /\ 0 <= ea < 64 /\ 0 <= pts < 2 ^ 33 /\
    0 <= cw < 256 /\ String.length tier = 3%nat /\ 0 <= scl < 4096 /\
    0 <= n < 65536 /\
    (t = x06 -> exists st, cmd = VDict [("splice_time", VDict st)] /\
                           has_key "time_specified_flag" st = true) /\
    (t = x05 -> cmd = VNone \/ exists ssi, cmd = VDict ssi) /\
    (descs = VNone \/ exists ds, descs = VList ds).
Proof.
  unfold parse. intros H.
  destruct (parse_header_and_command py (BitString input_bytes))
    as [[[sis0 n] s] | e |] eqn:Hhead; try discriminate.
  apply parse_header_and_command_exact in Hhead.
  rewrite BitString_len in Hhead. cbn [BitString data pos] in Hhead.
  destruct Hhead as (_ & Htid & ssi & pi & sl & pv & ep & ea & pts & cw & tier
                     & scl & sct & cmd & k & -> & Esct & Hcmd & Rsl & Rpv & Rea
                     & Rpts & Rcw & Ltier & Rscl & Rn & Hp & Hk & Hle).
  assert (Hlen : (17 <= List.length input_bytes)%nat) by lia.
  destruct (nth_error input_bytes 0) as [b0 |] eqn:E0;
    [| apply nth_error_None in E0; lia].
  destruct (nth_error input_bytes 13) as [t |] eqn:E13;
    [| apply nth_error_None in E13; lia].
  pose proof (byte_at _ _ _ E0) as B0.
  change (8 * 0)%nat with 0%nat in B0. cbn [skipn] in B0, Htid.
  rewrite B0, bits_to_Z_of_byte in Htid.
  apply table_id_252 in Htid. subst b0.
  pose proof (byte_at _ _ _ E13) as B13.
  change (0 + 104)%nat with (8 * 13)%nat in Esct.
  rewrite B13, bits_to_Z_of_byte in Esct.
  split; [reflexivity |]. split; [exact Hlen |].
  assert (Hdescs : exists descs,
             sis = section_record ssi pi sl pv ep ea pts cw tier scl sct cmd n descs
             /\ (descs = VNone \/ exists ds, descs = VList ds)).
  { unfold parse_descriptors_into in H.
    destruct (n >? 0).
    - destruct (parse_splice_descriptors n s) as [[ds s'] | e |];
        inversion H; subst.
      + exists (VList ds). split; [reflexivity |]. right. eexists. reflexivity.
      + exists VNone. split; [reflexivity | left; reflexivity].
    - inversion H; subst. exists VNone. split; [reflexivity | left; reflexivity]. }
  destruct Hdescs as (descs & -> & Hdescs).
  exists t, ssi, pi, sl, pv, ep, ea, pts, cw, tier, scl, cmd, n, descs.
  split; [reflexivity |].
  assert (Ht : (t = x05 /\ sct = 5) \/ (t = x06 /\ sct = 6)).
  { destruct Hcmd as [(E5 & _) | (E6 & _)]; [left | right];
      (split; [apply byte_value_inj; rewrite <- Esct |]; assumption). }
  split; [destruct Ht as [[? _] | [? _]]; auto |].
  split; [rewrite Esct; reflexivity |].
  split; [exact Rsl |]. split; [exact Rpv |]. split; [exact Rea |].
  split; [exact Rpts |]. split; [exact Rcw |]. split; [exact Ltier |].
  split; [exact Rscl |]. split; [exact Rn |].
  split; [| split; [| exact Hdescs]].
  - intros ->. destruct Hcmd as [(E5 & _) | (_ & s2 & Hrun)].
    + rewrite Esct in E5. discriminate E5.
    + unfold parse_time_signal in Hrun.
      bind_inv Hrun as st sa Hst. apply ret_OK in Hrun.
      destruct Hrun as [<- _]. exists st. split; [reflexivity |].
      apply parse_splice_time_inv in Hst. destruct Hst as [_ Hst].
      destruct (nth _ _ false); destruct Hst as (-> & _); reflexivity.
  - intros ->. destruct Hcmd as [(_ & s2 & Hrun) | (E6 & _)].
    + apply splice_insert_inv in Hrun.
      destruct Hrun as (_ & [(-> & _) | Hrec]); [left; reflexivity |].
      destruct Hrec as (id & oon & psf & dur & imm & st & count & comps & bd
                        & upid & avail & avails & k' & -> & _).
      right. eexists. reflexivity.
    + rewrite Esct in E6. discriminate E6.
Qed.

(** X13.  No buffer shorter than seventeen bytes decodes: [parse] raises. *)
Theorem short_input_raises py input_bytes :
  (List.length input_bytes < 17)%nat ->
  exists e, parse py input_bytes = Err e.
Proof.
  intros Hshort.
  destruct (parse py input_bytes) as [[sis printed] | e |] eqn:H.
  - apply parse_section_inv in H. destruct H as (_ & Hlen & _). lia.
  - exists e. reflexivity.
  - exfalso. exact (parse_never_out_of_fuel _ _ H).
Qed.

(** X14.  [splice_descriptors] is [None] or a list that is not empty, never the
    empty list.  When it is a list, its elements have the shape of a
    descriptor, the loop length is positive and nothing was printed; at
    most one exception is printed, and only beside [None] and a positive
    loop length. *)
Theorem splice_descriptors_field py input_bytes sis printed :
  parse py input_bytes = OK (sis, printed) ->
  exists n,
    dict_get "splice_descriptor_loop_length" sis = Some (VInt n) /\
    ((dict_get "splice_descriptors" sis = Some VNone /\
      ((n = 0 /\ printed = []) \/ (0 < n /\ exists e, printed = [e]))) \/
     (exists ds,
        dict_get "splice_descriptors" sis = Some (VList ds) /\
        ds <> [] /\ Forall descriptor_shape ds /\
        (List.length ds <= List.length input_bytes - 17)%nat /\
        0 < n /\ printed = [])).
Proof.
  unfold parse. intros H.
  destruct (parse_header_and_command py (BitString input_bytes))
    as [[[sis0 n] s] | e |] eqn:Hhead; try discriminate.
  pose proof (parse_header_and_command_OK _ _ _ _ _ Hhead) as [Hn _].
  pose proof (header_descriptors_None _ _ _ _ _ Hhead) as [Hnone Hlen].
  apply parse_header_and_command_exact in Hhead.
  rewrite BitString_len in Hhead. cbn [BitString data pos] in Hhead.
  destruct Hhead as (Hd & _ & ssi & pi & sl & pv & ep & ea & pts & cw & tier
                     & scl & sct & cmd & k & _ & _ & _ & _ & _ & _ & _ & _ & _
                     & _ & _ & Hp & Hk & Hle).
  exists n. unfold parse_descriptors_into in H.
  destruct (Z.gtb_spec n 0) as [Hpos | Hle0].
  - destruct (parse_splice_descriptors n s) as [[ds s'] | e |] eqn:Hloop;
      inversion H; subst.
    + rewrite dict_get_set_other by reflexivity. split; [exact Hlen |].
      right. exists ds. rewrite dict_get_set_same.
      pose proof Hloop as Hloop'.
      apply parse_splice_descriptors_inv in Hloop.
      destruct Hloop as (Hd' & Hall & (k' & Hp' & Hk') & Hnil).
      split; [reflexivity |].
      split; [intros E; apply Hnil in E; lia |].
      split; [exact Hall |].
      split; [| split; [lia | reflexivity]].
      (* the loop stops inside the buffer *)
      pose proof (inside_parse_splice_descriptors n _ _ _ Hloop') as Hin.
      pose proof (BitString_len input_bytes) as HL.
      unfold len, BitString in HL, Hin. cbn [data] in HL.
      rewrite Hd', Hd, HL in Hin. specialize (Hin Hle). lia.
    + split; [exact Hlen |]. left. split; [exact Hnone |].
      right. split; [lia | eexists; reflexivity].
  - inversion H; subst. split; [exact Hlen |]. left. split; [exact Hnone |].
    left. split; [lia | reflexivity].
Qed.

(** ** An unsupported command type *)

Lemma bind_read_uint {B} n (k : Z -> M B) s :
  (pos s + n <= len s)%nat ->
  bind (read_uint n) k s =
  k (bits_to_Z (firstn n (skipn (pos s) (data s))))
    {| data := data s; pos := (pos s + n)%nat |}.
Proof. intros H. apply bind_run, read_uint_eq, H. Qed.

Lemma bind_read_bool {B} (k : bool -> M B) s :
  (pos s + 1 <= len s)%nat ->
  bind read_bool k s =
  k (nth (pos s) (data s) false) {| data := data s; pos := (pos s + 1)%nat |}.
Proof. intros H. apply bind_run, read_bool_eq, H. Qed.

Lemma bind_read_hex {B} n (k : string -> M B) s :
  (pos s + n <= len s)%nat ->
  bind (read_hex n) k s =
  k (hex_of_bits (firstn n (skipn (pos s) (data s))))
    {| data := data s; pos := (pos s + n)%nat |}.
Proof. intros H. apply bind_run, read_hex_eq, H. Qed.

Lemma bind_skip {B} n (k : unit -> M B) s :
  (pos s + n <= len s)%nat ->
  bind (skip n) k s = k tt {| data := data s; pos := (pos s + n)%nat |}.
Proof. intros H. apply bind_run, skip_eq, H. Qed.

(** On a cursor with the fourteen header bytes in front of it, a table id
    of 0xfc and a command type other than 5 and 6, the first part of
    [parse] raises on the command type. *)
Lemma unsupported_command_cursor py s t :
  (pos s + 112 <= len s)%nat ->
  bits_to_Z (firstn 8 (skipn (pos s) (data s))) = 252 ->
  bits_to_Z (firstn 8 (skipn (pos s + 104) (data s))) = t ->
  t <> 5 -> t <> 6 ->
  parse_header_and_command py s = Err (UnsupportedSpliceCommand t).
Proof.
  intros Hlen Htid Ht N5 N6. unfold parse_header_and_command.
  rewrite bind_read_uint by lia. rewrite Htid. cbn [Z.eqb Pos.eqb negb].
  cbv zeta. unfold len in *.
  rewrite bind_read_bool by (unfold len; cbn [data pos]; lia).
  rewrite bind_read_bool by (unfold len; cbn [data pos]; lia).
  rewrite bind_skip by (unfold len; cbn [data pos]; lia).
  rewrite bind_read_uint by (unfold len; cbn [data pos]; lia).
  rewrite bind_read_uint by (unfold len; cbn [data pos]; lia).
  rewrite bind_read_bool by (unfold len; cbn [data pos]; lia).
  rewrite bind_read_uint by (unfold len; cbn [data pos]; lia).
  rewrite bind_read_uint by (unfold len; cbn [data pos]; lia).
  rewrite bind_read_uint by (unfold len; cbn [data pos]; lia).
  rewrite bind_read_hex by (unfold len; cbn [data pos]; lia).
  rewrite bind_read_uint by (unfold len; cbn [data pos]; lia).
  rewrite bind_read_uint by (unfold len; cbn [data pos]; lia).
  cbn [data pos].
  replace (pos s + 8 + 1 + 1 + 2 + 12 + 8 + 1 + 6 + 33 + 8 + 12 + 12)%nat
    with (pos s + 104)%nat by lia.
  rewrite Ht. unfold bind.
  destruct (Z.eqb_spec t 5) as [E | _]; [contradiction |].
  destruct (Z.eqb_spec t 6) as [E | _]; [contradiction |].
  reflexivity.
Qed.

(** X15.  A buffer of at least fourteen bytes that starts with 0xfc and has a
    byte other than 5 and 6 at offset 13 makes [parse] raise the
    unsupported-command exception with that byte, whatever follows and
    whatever the other header bytes are. *)
Theorem unsupported_command_is_fatal py input_bytes t :
  nth_error input_bytes 0 = Some xfc ->
  nth_error input_bytes 13 = Some t ->
  t <> x05 -> t <> x06 ->
  parse py input_bytes = Err (UnsupportedSpliceCommand (Z.of_N (Byte.to_N t))).
Proof.
  intros H0 H13 N5 N6. unfold parse.
  rewrite (unsupported_command_cursor py (BitString input_bytes)
             (Z.of_N (Byte.to_N t))); [reflexivity | | | | |].
  - rewrite BitString_len. cbn [BitString pos].
    assert (13 < List.length input_bytes)%nat
      by (apply nth_error_Some; congruence).
    lia.
  - cbn [BitString pos data skipn].
    pose proof (byte_at _ _ _ H0) as B. change (8 * 0)%nat with 0%nat in B.
    cbn [skipn] in B. rewrite B. reflexivity.
  - cbn [BitString pos data]. change (0 + 104)%nat with (8 * 13)%nat.
    rewrite (byte_at _ _ _ H13). apply bits_to_Z_of_byte.
  - intros E. apply N5, byte_value_inj. exact E.
  - intros E. apply N6, byte_value_inj. exact E.
Qed.

(** ** Hex digits and back *)

Lemma hex_value_digit b3 b2 b1 b0 :
  hex_value (hex_digit (bits_to_Z [b3; b2; b1; b0]))
  = Some (bits_to_Z [b3; b2; b1; b0]).
Proof. destruct b3, b2, b1, b0; reflexivity. Qed.

Lemma bits_to_Z_nibble b3 b2 b1 b0 r acc :
  fold_left (fun a b => 2 * a + Z.b2z b) (b3 :: b2 :: b1 :: b0 :: r) acc
  = fold_left (fun a b => 2 * a + Z.b2z b) r
      (16 * acc + bits_to_Z [b3; b2; b1; b0]).
Proof.
  unfold bits_to_Z. cbn [fold_left]. f_equal.
  destruct b3, b2, b1, b0; unfold Z.b2z; lia.
Qed.

Lemma int16_from_hex k :
  forall l acc,
    List.length l = (4 * k)%nat ->
    int16_from acc (hex_of_bits l)
    = OK (fold_left (fun a b => 2 * a + Z.b2z b) l acc).
Proof.
  induction k as [| k IH]; intros l acc Hl.
  - destruct l; [reflexivity | discriminate Hl].
  - destruct l as [| b3 [| b2 [| b1 [| b0 r]]]]; simpl in Hl; try lia.
    cbn [hex_of_bits int16_from]. rewrite hex_value_digit, IH by lia.
    rewrite bits_to_Z_nibble. reflexivity.
Qed.

(** X16.  [int(x, 16)] of what [.hex] rendered gives back the value of the bits:
    the conversion of [segmentation_upid_type] never raises, and gives the
    byte that was read. *)
Theorem int16_of_read_hex s raw s' :
  read_hex 8 s = OK (raw, s') ->
  int16 raw = OK (bits_to_Z (firstn 8 (skipn (pos s) (data s)))) /\
  0 <= bits_to_Z (firstn 8 (skipn (pos s) (data s))) < 256.
Proof.
  intros H. pose proof (read_hex_8 _ _ _ H) as Hbits.
  apply read_hex_OK in H. destruct H as (Hle & _ & ->).
  assert (L : List.length (firstn 8 (skipn (pos s) (data s))) = 8%nat).
  { rewrite length_firstn, length_skipn. unfold len in Hle. lia. }
  split.
  - destruct (firstn 8 (skipn (pos s) (data s)))
      as [| b7 [| b6 [| b5 [| b4 [| b3 [| b2 [| b1 [| b0 [| x l]]]]]]]]];
      try discriminate L.
    unfold int16. cbn [hex_of_bits].
    exact (int16_from_hex 2 [b7; b6; b5; b4; b3; b2; b1; b0] 0 eq_refl).
  - split; [apply bits_to_Z_nonneg |].
    pose proof (bits_to_Z_bound (firstn 8 (skipn (pos s) (data s)))) as B.
    rewrite L in B. exact B.
Qed.

(** * The further properties, stated *)

(** ** splice_time and break_duration *)

(** X1.  [__parse_splice_time] looks at the bit under the cursor.  When it is
    clear the record holds the flag alone and one byte is consumed; when it
    is set the record also holds [pts_time], the 33 bits that follow the
    six reserved ones, and five bytes are consumed. *)
Theorem parse_splice_time_record s st s' :
  parse_splice_time s = OK (st, s') ->
  data s' = data s /\
  if nth (pos s) (data s) false
  then st = [("time_specified_flag", VBool true);
             ("pts_time",
              VInt (bits_to_Z (firstn 33 (skipn (pos s + 7) (data s)))))] /\
       pos s' = (pos s + 40)%nat /\
       has_key "pts_time" st = true
  else st = [("time_specified_flag", VBool false)] /\
       pos s' = (pos s + 8)%nat /\
       has_key "pts_time" st = false.
Proof. exact (parse_splice_time_inv s st s'). Qed.

Lemma parse_splice_time_record_witness :
  let s := BitString splice_time_bytes in
  let s' := {| data := data s; pos := 40 |} in
  data s' = data s /\
  if nth (pos s) (data s) false
  then decoded_splice_time
       = [("time_specified_flag", VBool true);
          ("pts_time",
           VInt (bits_to_Z (firstn 33 (skipn (pos s + 7) (data s)))))] /\
       pos s' = (pos s + 40)%nat /\
       has_key "pts_time" decoded_splice_time = true
  else decoded_splice_time = [("time_specified_flag", VBool false)] /\
       pos s' = (pos s + 8)%nat /\
       has_key "pts_time" decoded_splice_time = false.
Proof.
  intros s s'. apply (parse_splice_time_record s decoded_splice_time s').
  vm_compute. reflexivity.
Defined.

Lemma parse_splice_time_pts_range_witness :
  0 <= 5 < 2 ^ 33 /\
  dict_get "time_specified_flag" decoded_splice_time = Some (VBool true).
Proof.
  apply (parse_splice_time_pts_range (BitString splice_time_bytes)
           decoded_splice_time
           {| data := data (BitString splice_time_bytes); pos := 40 |} 5).
  - vm_compute. reflexivity.
  - vm_compute. reflexivity.
Defined.

(** X3.  [__parse_break_duration] consumes five bytes: [auto_return] is the bit
    under the cursor and [duration] the 33 bits after the six reserved
    ones. *)
Theorem parse_break_duration_record s bd s' :
  parse_break_duration s = OK (bd, s') ->
  bd = [("auto_return", VBool (nth (pos s) (data s) false));
        ("duration",
         VInt (bits_to_Z (firstn 33 (skipn (pos s + 7) (data s)))))] /\
  0 <= bits_to_Z (firstn 33 (skipn (pos s + 7) (data s))) < 2 ^ 33 /\
  data s' = data s /\ pos s' = (pos s + 40)%nat.
Proof. exact (parse_break_duration_inv s bd s'). Qed.

Lemma parse_break_duration_record_witness :
  let s := BitString break_duration_bytes in
  let s' := {| data := data s; pos := 40 |} in
  decoded_break_duration
  = [("auto_return", VBool (nth (pos s) (data s) false));
     ("duration",
      VInt (bits_to_Z (firstn 33 (skipn (pos s + 7) (data s)))))] /\
  0 <= bits_to_Z (firstn 33 (skipn (pos s + 7) (data s))) < 2 ^ 33 /\
  data s' = data s /\ pos s' = (pos s + 40)%nat.
Proof.
  intros s s'. apply (parse_break_duration_record s decoded_break_duration s').
  vm_compute. reflexivity.
Defined.

(** ** splice_insert *)

(** X4.  The whole of what [__parse_splice_insert] returns and consumes.  With
    the cancel bit set it returns [None] after five bytes.  Otherwise it
    returns [splice_insert_record] of the values read, with the numbers
    within the width they were read with, and it consumes whole bytes, ten
    at least.  A component list that is not empty needs [xrange]. *)
Theorem splice_insert_record_exact py s v s' :
  parse_splice_insert py s = OK (v, s') ->
  data s' = data s /\
  ((v = VNone /\ nth (pos s + 32) (data s) false = true /\
    pos s' = (pos s + 8 * 5)%nat) \/
   (exists id oon psf dur imm st count comps bd upid avail avails k,
      v = VDict (splice_insert_record id oon psf dur imm st count comps bd
                   upid avail avails) /\
      nth (pos s + 32) (data s) false = false /\
      0 <= id < 2 ^ 32 /\
      (psf = true -> comps = []) /\
      (psf = false ->
       py = Python2 /\ 0 <= count < 256 /\
       List.length comps = Z.to_nat count /\
       Forall (decoded_component imm) comps) /\
      (psf && negb imm = true -> has_key "time_specified_flag" st = true) /\
      (dur = true ->
       exists auto_return duration,
         0 <= duration < 2 ^ 33 /\
         bd = [("auto_return", VBool auto_return); ("duration", VInt duration)]) /\
      0 <= upid < 2 ^ 16 /\ 0 <= avail < 256 /\ 0 <= avails < 256 /\
      pos s' = (pos s + 8 * k)%nat /\ (10 <= k)%nat)).
Proof. exact (splice_insert_inv py s v s'). Qed.

Lemma splice_insert_record_exact_witness :
  let s := BitString timed_splice_insert_body in
  let s' := {| data := data s; pos := 160 |} in
  let v := VDict decoded_timed_splice_insert in
  data s' = data s /\
  ((v = VNone /\ nth (pos s + 32) (data s) false = true /\
    pos s' = (pos s + 8 * 5)%nat) \/
   (exists id oon psf dur imm st count comps bd upid avail avails k,
      v = VDict (splice_insert_record id oon psf dur imm st count comps bd
                   upid avail avails) /\
      nth (pos s + 32) (data s) false = false /\
      0 <= id < 2 ^ 32 /\
      (psf = true -> comps = []) /\
      (psf = false ->
       Python3 = Python2 /\ 0 <= count < 256 /\
       List.length comps = Z.to_nat count /\
       Forall (decoded_component imm) comps) /\
      (psf && negb imm = true -> has_key "time_specified_flag" st = true) /\
      (dur = true ->
       exists auto_return duration,
         0 <= duration < 2 ^ 33 /\
         bd = [("auto_return", VBool auto_return); ("duration", VInt duration)]) /\
      0 <= upid < 2 ^ 16 /\ 0 <= avail < 256 /\ 0 <= avails < 256 /\
      pos s' = (pos s + 8 * k)%nat /\ (10 <= k)%nat)).
Proof.
  intros s s' v. apply (splice_insert_record_exact Python3 s v s').
  vm_compute. reflexivity.
Defined.

(** X5.  In the dictionary [__parse_splice_insert] returns, [splice_time] is
    bound exactly when [program_splice_flag] is set and
    [splice_immediate_flag] is not, [component_count] exactly when
    [program_splice_flag] is not set, and [break_duration] exactly when
    [duration_flag] is set. *)
Theorem splice_insert_optional_fields py s ssi s' :
  parse_splice_insert py s = OK (VDict ssi, s') ->
  exists psf dur imm,
    dict_get "program_splice_flag" ssi = Some (VBool psf) /\
    dict_get "duration_flag" ssi = Some (VBool dur) /\
    dict_get "splice_immediate_flag" ssi = Some (VBool imm) /\
    has_key "splice_time" ssi = psf && negb imm /\
    has_key "component_count" ssi = negb psf /\
    has_key "break_duration" ssi = dur /\
    has_key "unique_program_id" ssi = true /\
    has_key "avail_num" ssi = true /\
    has_key "avails_expected" ssi = true.
Proof.
  intros H. apply splice_insert_inv in H.
  destruct H as (_ & [(E & _) | Hrec]); [discriminate E |].
  destruct Hrec as (id & oon & psf & dur & imm & st & count & comps & bd
                    & upid & avail & avails & k & E & _).
  injection E as ->. exists psf, dur, imm.
  unfold splice_insert_record.
  destruct psf, dur, imm; repeat split; reflexivity.
Qed.

Lemma splice_insert_optional_fields_witness :
  exists psf dur imm,
    dict_get "program_splice_flag" decoded_timed_splice_insert
      = Some (VBool psf) /\
    dict_get "duration_flag" decoded_timed_splice_insert = Some (VBool dur) /\
    dict_get "splice_immediate_flag" decoded_timed_splice_insert
      = Some (VBool imm) /\
    has_key "splice_time" decoded_timed_splice_insert = psf && negb imm /\
    has_key "component_count" decoded_timed_splice_insert = negb psf /\
    has_key "break_duration" decoded_timed_splice_insert = dur /\
    has_key "unique_program_id" decoded_timed_splice_insert = true /\
    has_key "avail_num" decoded_timed_splice_insert = true /\
    has_key "avails_expected" decoded_timed_splice_insert = true.
Proof.
  apply (splice_insert_optional_fields Python3
           (BitString timed_splice_insert_body) decoded_timed_splice_insert
           {| data := data (BitString timed_splice_insert_body); pos := 160 |}).
  vm_compute. reflexivity.
Defined.

(** ** The segmentation descriptor *)

(** X6.  The whole of what [__parse_segmentation_descriptor] returns and
    consumes.  A cancelled event gives the five-key record and takes nine
    bytes.  Otherwise the record is [segmentation_record] of the values
    read, and the bytes taken are [segmentation_record_bytes]: they follow
    from the flags, the component count, the UPID length and the raw type
    id, and not from the [length] the descriptor declares.  The UPID is
    rendered as two hex digits per byte of its length. *)
Theorem segmentation_descriptor_record tag length s sd s' :
  parse_segmentation_descriptor tag length s = OK (sd, s') ->
  data s' = data s /\
  exists identifier event_id,
    0 <= identifier < 2 ^ 32 /\ 0 <= event_id < 2 ^ 32 /\
    ((sd = cancelled_segmentation_record tag length identifier event_id /\
     pos s' = (pos s + 8 * 9)%nat) \/
    (exists psf sdf dnr web nrb arch dev count comps dur
            upid_type upid_length upid raw segment_num segments_expected ssn sse,
       sd = segmentation_record tag length identifier event_id psf sdf dnr
              web nrb arch dev count comps dur upid_type upid_length upid raw
              segment_num segments_expected ssn sse /\
       pos s' = (pos s + 8 * segmentation_record_bytes psf sdf count
                               upid_length raw)%nat /\
       0 <= dev < 4 /\
       0 <= count < 256 /\
       (psf = false ->
        List.length comps = Z.to_nat count /\
        Forall segmentation_component comps) /\
       0 <= dur < 2 ^ 40 /\
       0 <= upid_length < 256 /\
       String.length upid = (2 * Z.to_nat upid_length)%nat /\
       String.length raw = 2%nat)).
Proof. exact (segmentation_descriptor_inv tag length s sd s'). Qed.

Lemma segmentation_descriptor_record_witness :
  let s := BitString full_segmentation_body in
  let s' := {| data := data s; pos := 248 |} in
  let sd := decoded_full_segmentation in
  data s' = data s /\
  exists identifier event_id,
    0 <= identifier < 2 ^ 32 /\ 0 <= event_id < 2 ^ 32 /\
    ((sd = cancelled_segmentation_record 2 31 identifier event_id /\
     pos s' = (pos s + 8 * 9)%nat) \/
    (exists psf sdf dnr web nrb arch dev count comps dur
            upid_type upid_length upid raw segment_num segments_expected ssn sse,
       sd = segmentation_record 2 31 identifier event_id psf sdf dnr
              web nrb arch dev count comps dur upid_type upid_length upid raw
              segment_num segments_expected ssn sse /\
       pos s' = (pos s + 8 * segmentation_record_bytes psf sdf count
                               upid_length raw)%nat /\
       0 <= dev < 4 /\
       0 <= count < 256 /\
       (psf = false ->
        List.length comps = Z.to_nat count /\
        Forall segmentation_component comps) /\
       0 <= dur < 2 ^ 40 /\
       0 <= upid_length < 256 /\
       String.length upid = (2 * Z.to_nat upid_length)%nat /\
       String.length raw = 2%nat)).
Proof.
  intros s s' sd. apply (segmentation_descriptor_record 2 31 s sd s').
  vm_compute. reflexivity.
Defined.

(** X7.  In a segmentation descriptor that is not cancelled, the four delivery
    fields are bound exactly when [delivery_not_restricted_flag] is clear,
    [component_count] and [components] exactly when
    [program_segmentation_flag] is clear, and [segmentation_duration]
    exactly when [segmentation_duration_flag] is set; the UPID, type id
    and segment number keys are always bound. *)
Theorem segmentation_optional_fields tag length s sd s' :
  parse_segmentation_descriptor tag length s = OK (sd, s') ->
  dict_get "segmentation_event_cancel_indicator" sd = Some (VBool false) ->
  exists psf sdf dnr,
    dict_get "program_segmentation_flag" sd = Some (VBool psf) /\
    dict_get "segmentation_duration_flag" sd = Some (VBool sdf) /\
    dict_get "delivery_not_restricted_flag" sd = Some (VBool dnr) /\
    has_key "web_delivery_allowed_flag" sd = negb dnr /\
    has_key "no_regional_blackout_flag" sd = negb dnr /\
    has_key "archive_allowed_flag" sd = negb dnr /\
    has_key "device_restrictions" sd = negb dnr /\
    has_key "component_count" sd = negb psf /\
    has_key "components" sd = negb psf /\
    has_key "segmentation_duration" sd = sdf /\
    has_key "segmentation_upid_type" sd = true /\
    has_key "segmentation_upid_length" sd = true /\
    has_key "segmentation_upid" sd = true /\
    has_key "segmentation_type_id" sd = true /\
    has_key "segment_num" sd = true /\
    has_key "segments_expected" sd = true.
Proof.
  intros H Hcancel. apply segmentation_descriptor_inv in H.
  destruct H as (_ & ident & event & _ & _ & [(-> & _) | Hrec]);
    [discriminate Hcancel |].
  destruct Hrec as (psf & sdf & dnr & web & nrb & arch & dev & count & comps
                    & dur & ut & ul & upid & raw & num & exp & ssn & sse
                    & -> & _).
  exists psf, sdf, dnr. unfold segmentation_record.
  destruct psf, sdf, dnr, (existsb (String.eqb raw) ["34"; "36"]);
    repeat split; reflexivity.
Qed.

Lemma segmentation_optional_fields_witness :
  let sd := decoded_full_segmentation in
  exists psf sdf dnr,
    dict_get "program_segmentation_flag" sd = Some (VBool psf) /\
    dict_get "segmentation_duration_flag" sd = Some (VBool sdf) /\
    dict_get "delivery_not_restricted_flag" sd = Some (VBool dnr) /\
    has_key "web_delivery_allowed_flag" sd = negb dnr /\
    has_key "no_regional_blackout_flag" sd = negb dnr /\
    has_key "archive_allowed_flag" sd = negb dnr /\
    has_key "device_restrictions" sd = negb dnr /\
    has_key "component_count" sd = negb psf /\
    has_key "components" sd = negb psf /\
    has_key "segmentation_duration" sd = sdf /\
    has_key "segmentation_upid_type" sd = true /\
    has_key "segmentation_upid_length" sd = true /\
    has_key "segmentation_upid" sd = true /\
    has_key "segmentation_type_id" sd = true /\
    has_key "segment_num" sd = true /\
    has_key "segments_expected" sd = true.
Proof.
  intros sd.
  apply (segmentation_optional_fields 2 31 (BitString full_segmentation_body) sd
           {| data := data (BitString full_segmentation_body); pos := 248 |}).
  - vm_compute. reflexivity.
  - vm_compute. reflexivity.
Defined.

(** X8.  A segmentation descriptor whose cancel indicator is set comes back,
    unlike a cancelled [splice_insert], as a record: the tag, the length,
    the identifier, the event id and the indicator, and nothing else; nine
    bytes were consumed. *)
Theorem cancelled_segmentation_descriptor tag length s sd s' :
  parse_segmentation_descriptor tag length s = OK (sd, s') ->
  dict_get "segmentation_event_cancel_indicator" sd = Some (VBool true) ->
  (exists identifier event_id,
     0 <= identifier < 2 ^ 32 /\ 0 <= event_id < 2 ^ 32 /\
     sd = cancelled_segmentation_record tag length identifier event_id) /\
  data s' = data s /\ pos s' = (pos s + 72)%nat.
Proof.
  intros H Hcancel. apply segmentation_descriptor_inv in H.
  destruct H as (Hd & ident & event & Ri & Re & [(-> & Hp) | Hrec]).
  - split; [exists ident, event; auto |]. split; [exact Hd | lia].
  - destruct Hrec as (psf & sdf & dnr & web & nrb & arch & dev & count & comps
                      & dur & ut & ul & upid & raw & num & exp & ssn & sse
                      & -> & _).
    discriminate Hcancel.
Qed.

Lemma cancelled_segmentation_descriptor_witness :
  let s := BitString cancelled_segmentation_body in
  let s' := {| data := data s; pos := 72 |} in
  (exists identifier event_id,
     0 <= identifier < 2 ^ 32 /\ 0 <= event_id < 2 ^ 32 /\
     cancelled_segmentation_record 2 9 1129661769 7
     = cancelled_segmentation_record 2 9 identifier event_id) /\
  data s' = data s /\ pos s' = (pos s + 72)%nat.
Proof.
  intros s s'.
  apply (cancelled_segmentation_descriptor 2 9 s
           (cancelled_segmentation_record 2 9 1129661769 7) s').
  - vm_compute. reflexivity.
  - vm_compute. reflexivity.
Defined.

(** ** The descriptor loop *)

(** X9.  What [__parse_splice_descriptors] returns: descriptors of the expected
    shape, each with the tag and length bytes it was read with and a bare
    stub when the tag is not 2; no more of them than the bytes it consumed;
    and none at all only for a budget of 0. *)
Theorem parse_splice_descriptors_results length s results s' :
  parse_splice_descriptors length s = OK (results, s') ->
  data s' = data s /\
  Forall descriptor_shape results /\
  (exists k, pos s' = (pos s + 8 * k)%nat /\ (List.length results <= k)%nat) /\
  (results = [] <-> length = 0).
Proof. exact (parse_splice_descriptors_inv length s results s'). Qed.

Lemma parse_splice_descriptors_results_witness :
  let s := descriptors_cursor in
  let s' := {| data := data s; pos := 296 |} in
  data s' = data s /\
  Forall descriptor_shape decoded_descriptors /\
  (exists k, pos s' = (pos s + 8 * k)%nat /\
             (List.length decoded_descriptors <= k)%nat) /\
  (decoded_descriptors = [] <-> 20 = 0).
Proof.
  intros s s'.
  apply (parse_splice_descriptors_results 20 s decoded_descriptors s').
  vm_compute. reflexivity.
Defined.

Lemma lone_trailing_tag_witness :
  parse_splice_descriptors 5
    {| data := data (BitString overshooting_descriptor); pos := 168 |} =
  OK ([stub 7 0],
      {| data := data (BitString overshooting_descriptor); pos := 176 |}).
Proof.
  apply (lone_trailing_tag 5
           {| data := data (BitString overshooting_descriptor); pos := 168 |}).
  - discriminate.
  - reflexivity.
Defined.

(** ** The section *)

(** X12.  Every section [parse] returns comes from a buffer of at least
    seventeen bytes that starts with 0xfc and has 5 or 6 at offset 13.  It
    holds the fourteen keys of [section_record], in that order, with
    [splice_command_type] the byte at offset 13, the numbers within the
    width they were read with and [tier] as three hex digits.  For type 6
    the command is a dictionary with [splice_time] alone; for type 5 it is
    [None] or a dictionary. *)
Theorem parse_section_record py input_bytes sis printed :
  parse py input_bytes = OK (sis, printed) ->
  nth_error input_bytes 0 = Some xfc /\
  (17 <= List.length input_bytes)%nat /\
  exists t ssi pi sl pv ep ea pts cw tier scl cmd n descs,
    nth_error input_bytes 13 = Some t /\
    (t = x05 \/ t = x06) /\
    sis = section_record ssi pi sl pv ep ea pts cw tier scl
            (Z.of_N (Byte.to_N t)) cmd n descs /\
    0 <= sl < 4096 /\ 0 <= pv < 256 /\ 0 <= ea < 64 /\ 0 <= pts < 2 ^ 33 /\
    0 <= cw < 256 /\ String.length tier = 3%nat /\ 0 <= scl < 4096 /\
    0 <= n < 65536 /\
    (t = x06 -> exists st, cmd = VDict [("splice_time", VDict st)] /\
                           has_key "time_specified_flag" st = true) /\
    (t = x05 -> cmd = VNone \/ exists ssi, cmd = VDict ssi) /\
    (descs = VNone \/ exists ds, descs = VList ds).
Proof. exact (parse_section_inv py input_bytes sis printed). Qed.

Lemma parse_section_record_witness :
  let input_bytes := section_with_descriptors in
  let sis := decoded_section_with_descriptors in
  nth_error input_bytes 0 = Some xfc /\
  (17 <= List.length input_bytes)%nat /\
  exists t ssi pi sl pv ep ea pts cw tier scl cmd n descs,
    nth_error input_bytes 13 = Some t /\
    (t = x05 \/ t = x06) /\
    sis = section_record ssi pi sl pv ep ea pts cw tier scl
            (Z.of_N (Byte.to_N t)) cmd n descs /\
    0 <= sl < 4096 /\ 0 <= pv < 256 /\ 0 <= ea < 64 /\ 0 <= pts < 2 ^ 33 /\
    0 <= cw < 256 /\ String.length tier = 3%nat /\ 0 <= scl < 4096 /\
    0 <= n < 65536 /\
    (t = x06 -> exists st, cmd = VDict [("splice_time", VDict st)] /\
                           has_key "time_specified_flag" st = true) /\
    (t = x05 -> cmd = VNone \/ exists ssi, cmd = VDict ssi) /\
    (descs = VNone \/ exists ds, descs = VList ds).
Proof.
  intros input_bytes sis.
  apply (parse_section_record Python3 input_bytes sis []).
  vm_compute. reflexivity.
Defined.

Lemma short_input_raises_witness :
  exists e, parse Python3 (section_header x06) = Err e.
Proof.
  apply (short_input_raises Python3 (section_header x06)).
  vm_compute. lia.
Defined.

Lemma splice_descriptors_field_witness :
  let sis := decoded_section_with_descriptors in
  exists n,
    dict_get "splice_descriptor_loop_length" sis = Some (VInt n) /\
    ((dict_get "splice_descriptors" sis = Some VNone /\
      ((n = 0 /\ @nil exn = []) \/ (0 < n /\ exists e, @nil exn = [e]))) \/
     (exists ds,
        dict_get "splice_descriptors" sis = Some (VList ds) /\
        ds <> [] /\ Forall descriptor_shape ds /\
        (List.length ds <= List.length section_with_descriptors - 17)%nat /\
        0 < n /\ @nil exn = [])).
Proof.
  intros sis.
  apply (splice_descriptors_field Python3 section_with_descriptors sis []).
  vm_compute. reflexivity.
Defined.

Lemma unsupported_command_is_fatal_witness :
  parse Python3 unsupported_section = Err (UnsupportedSpliceCommand 7).
Proof.
  apply (unsupported_command_is_fatal Python3 unsupported_section x07).
  - reflexivity.
  - reflexivity.
  - discriminate.
  - discriminate.
Defined.

Lemma int16_of_read_hex_witness :
  let s := BitString [x08] in
  int16 "08" = OK (bits_to_Z (firstn 8 (skipn (pos s) (data s)))) /\
  0 <= bits_to_Z (firstn 8 (skipn (pos s) (data s))) < 256.
Proof.
  intros s.
  apply (int16_of_read_hex s "08" {| data := data s; pos := 8 |}).
  vm_compute. reflexivity.
Defined.

(** ** The loop ends *)

(** X11.  The [while] loop of [__parse_splice_descriptors] ends on every budget
    and every cursor, negative budgets included: the call returns a list
    or raises, and a returned cursor is no further back than it started. *)
Theorem descriptor_loop_always_ends length s :
  (exists results s',
     parse_splice_descriptors length s = OK (results, s') /\
     data s' = data s /\ (pos s <= pos s')%nat) \/
  (exists e, parse_splice_descriptors length s = Err e).
Proof.
  pose proof (forward_parse_splice_descriptors length) as [Hfuel Hfwd].
  specialize (Hfuel s).
  destruct (parse_splice_descriptors length s) as [[results s'] | e |] eqn:H.
  - left. exists results, s'. split; [reflexivity |]. exact (Hfwd _ _ _ H).
  - right. exists e. reflexivity.
  - congruence.
Qed.
